(** * Habit100: the data model and the day-indexed entry engine of habit100.py

    A shallow embedding of [src/habit100.py].  The Textual widgets are left
    out; what is kept is everything that reads or writes the two JSON
    documents held by [HabitTUI]: [Store.next_id], [today_done_ids], the row
    computation of [refresh_table], the actions bound to the keys
    (toggle, delete, filter, report) and the save handlers of [EditScreen]
    and [LogInputScreen].

    Conventions.
    - A Python [str] is a Rocq [string], the bytes of its UTF-8 encoding;
      [int] is [Z].
    - A habit is the dict [{id,title,tags,type,active}] of the [Habit]
      dataclass; an entry record is the dict [{id,ts,val}] with
      [val : true | str], as documented next to [HABITS] and [ENTRIES].
    - [entries_json] is a dict that may or may not have the key ["days"];
      the value under ["days"] is a dict from day keys to lists of records
      and is a [gmap string (list Entry)].
    - [datetime.now().strftime(TIMEFMT)] is an argument [now] of the
      operations that read the clock, and the current date is represented
      by the key [day_key()] computes from it. *)

From Stdlib Require Import Ascii.
From stdpp Require Import base option list sorting gmap strings pretty.

Open Scope Z_scope.

(** ** Python string helpers *)

Module PyStr.

(** The characters for which [str.isspace()] holds, by their UTF-8 bytes.
    The first byte of a character tells its length and occurs nowhere
    inside a character, so these bytes at the head or at the end of an
    encoded [str] are that character.
    One byte: U+0009 to U+000D, U+001C to U+001F and U+0020. *)
Definition space1 (a : ascii) : bool :=
  let n := N_of_ascii a in
  (((9 <=? n) && (n <=? 13)) || ((28 <=? n) && (n <=? 32)))%N.

(** Two bytes: U+0085 (C2 85) and U+00A0 (C2 A0). *)
Definition space2 (a b : ascii) : bool :=
  let m := N_of_ascii a in
  let n := N_of_ascii b in
  ((m =? 194) && ((n =? 133) || (n =? 160)))%N.

(** Three bytes: U+1680 (E1 9A 80), U+2000 to U+200A (E2 80 80 to E2 80
    8A), U+2028 and U+2029 (E2 80 A8, E2 80 A9), U+202F (E2 80 AF),
    U+205F (E2 81 9F) and U+3000 (E3 80 80). *)
Definition space3 (a b c : ascii) : bool :=
  let l := N_of_ascii a in
  let m := N_of_ascii b in
  let n := N_of_ascii c in
  (((l =? 225) && (m =? 154) && (n =? 128))
   || ((l =? 226) && (m =? 128)
       && (((128 <=? n) && (n <=? 138)) || (n =? 168) || (n =? 169) || (n =? 175)))
   || ((l =? 226) && (m =? 129) && (n =? 159))
   || ((l =? 227) && (m =? 128) && (n =? 128)))%N.

(** Drops from the head of [s] the characters recognised by [t1] (one
    byte), [t2] (two bytes) and [t3] (three bytes), until none is left
    there. *)
Fixpoint drop_chars (t1 : ascii → bool) (t2 : ascii → ascii → bool)
    (t3 : ascii → ascii → ascii → bool) (s : string) : string :=
  match s with
  | String a s1 =>
      if t1 a then drop_chars t1 t2 t3 s1
      else
        match s1 with
        | String b s2 =>
            if t2 a b then drop_chars t1 t2 t3 s2
            else
              match s2 with
              | String c s3 => if t3 a b c then drop_chars t1 t2 t3 s3 else s
              | EmptyString => s
              end
        | EmptyString => s
        end
  | EmptyString => EmptyString
  end.

(** [s.lstrip()] *)
Definition lstrip (s : string) : string := drop_chars space1 space2 space3 s.

(** [s.rstrip()]: on the reversed bytes the last byte of a character comes
    first. *)
Definition rstrip (s : string) : string :=
  String.rev (drop_chars space1 (λ b a, space2 a b) (λ c b a, space3 a b c)
                         (String.rev s)).

(** [s.strip()] *)
Definition strip (s : string) : string := rstrip (lstrip s).

(** [s.split(",")]: the loop state is the piece being read, reversed. *)
Fixpoint split_go (sep : ascii) (cur : string) (s : string) : list string :=
  match s with
  | EmptyString => [String.rev cur]
  | String c s' =>
      if bool_decide (c = sep) then String.rev cur :: split_go sep EmptyString s'
      else split_go sep (String c cur) s'
  end.

Definition split (sep : ascii) (s : string) : list string :=
  split_go sep EmptyString s.

(** [sep.join(l)] *)
Fixpoint join (sep : string) (l : list string) : string :=
  match l with
  | [] => ""
  | [x] => x
  | x :: l' => x +:+ sep +:+ join sep l'
  end.

(** Truthiness of a [str]: the empty string is falsy. *)
Definition truthy (s : string) : bool :=
  match s with EmptyString => false | _ => true end.

(** [s or d] *)
Definition or_else (s d : string) : string := if truthy s then s else d.

End PyStr.

(** ** Data model *)

(** [class Habit] and the dicts of [habits.json]. *)
Record Habit := mkHabit {
  h_id : Z;
  h_title : string;
  h_tags : list string;
  h_type : string;
  h_active : bool
}.

(** The [val] of an entry record: [true | str]. *)
Inductive Val :=
  | VTrue
  | VStr (s : string).

(** One record of [entries.json]: [{"id":1,"ts":"..","val": true|str}]. *)
Record Entry := mkEntry {
  r_id : Z;
  r_ts : string;
  r_val : Val
}.

Global Instance Habit_eq_dec : EqDecision Habit.
Proof. solve_decision. Defined.
Global Instance Val_eq_dec : EqDecision Val.
Proof. solve_decision. Defined.
Global Instance Entry_eq_dec : EqDecision Entry.
Proof. solve_decision. Defined.

(** [r.get("val") is True] *)
Definition val_is_true (r : Entry) : bool :=
  match r_val r with VTrue => true | VStr _ => false end.

(** [isinstance(r.get("val"), str)] *)
Definition val_is_str (r : Entry) : bool :=
  match r_val r with VTrue => false | VStr _ => true end.

(** [h.get("type","check") == "check"] *)
Definition is_check (h : Habit) : bool := bool_decide (h_type h = "check").

(** The state of [HabitTUI]: the two documents, the current day and the
    tag filter.  [entries_json] is [None] while the dict has no ["days"]
    key. *)
Record HabitTUI := mkTUI {
  habits_json : list Habit;
  entries_json : option (gmap string (list Entry));
  current_date : string;
  filter_tag : option string
}.

(** [self.day_key()] *)
Definition day_key (s : HabitTUI) : string := current_date s.

(** [self.entries_json.get("days", {})] *)
Definition get_days (e : option (gmap string (list Entry))) : gmap string (list Entry) :=
  default ∅ e.

(** [self.entries_json.get("days", {}).get(dkey, [])] *)
Definition day_entries (e : option (gmap string (list Entry))) (dkey : string) : list Entry :=
  default [] (get_days e !! dkey).

(** [THEMES] *)
Definition THEMES : list string :=
  ["수면·환경"; "몸·에너지"; "정신·태도"; "사회·관계"; "재정·소비"; "창의·학습"; "정체성·자기표현"].

(** ** Store.next_id *)

(** [max(ids)] for a list with first element [x]. *)
Definition py_max (x : Z) (l : list Z) : Z := foldl Z.max x l.

(** [Store.next_id]: [ids = [x["id"] for x in habits["habits"]]],
    [(max(ids) + 1) if ids else 1]. *)
Definition next_id (habits : list Habit) : Z :=
  let ids := map h_id habits in
  match ids with
  | [] => 1
  | x :: l => py_max x l + 1
  end.

(** ** HabitTUI helpers *)

Definition with_habits (s : HabitTUI) (habits : list Habit) : HabitTUI :=
  mkTUI habits (entries_json s) (current_date s) (filter_tag s).

Definition with_entries (s : HabitTUI) (e : option (gmap string (list Entry))) : HabitTUI :=
  mkTUI (habits_json s) e (current_date s) (filter_tag s).

Definition with_filter (s : HabitTUI) (t : option string) : HabitTUI :=
  mkTUI (habits_json s) (entries_json s) (current_date s) t.

(** [today_done_ids]: the loop adds [r["id"]] to the set [done] when
    [r.get("val") is True or isinstance(r.get("val"), str)]. *)
Definition today_done_ids (s : HabitTUI) : gset Z :=
  let arr := day_entries (entries_json s) (day_key s) in
  foldl (λ done r, if val_is_true r || val_is_str r then {[r_id r]} ∪ done else done)
        ∅ arr.

(** [sorted(habits, key=lambda x: x["id"])]: a stable sort, written as a
    stable insertion sort. *)
Fixpoint insert_by_id (h : Habit) (l : list Habit) : list Habit :=
  match l with
  | [] => [h]
  | y :: l' => if decide (h_id h ≤ h_id y) then h :: l else y :: insert_by_id h l'
  end.

Definition sorted_by_id (l : list Habit) : list Habit := foldr insert_by_id [] l.

(** One row of the table: the five cells and the [key] of [add_row]. *)
Record Row := mkRow {
  row_mark : string;
  row_id : string;
  row_type : string;
  row_title : string;
  row_tags : string;
  row_key : Z
}.

Definition CHECKED : string := "✅".
Definition UNCHECKED : string := "□".

(** [self.filter_tag and self.filter_tag not in (h.get("tags") or [])] *)
Definition filtered_out (ft : option string) (h : Habit) : bool :=
  match ft with
  | None => false
  | Some t => PyStr.truthy t && negb (bool_decide (t ∈ h_tags h))
  end.

(** The body of the loop of [refresh_table]. *)
Definition refresh_step (done : gset Z) (ft : option string)
    (rows : list Row) (h : Habit) : list Row :=
  if negb (h_active h) then rows
  else if filtered_out ft h then rows
  else
    let mark := if bool_decide (h_id h ∈ done) then CHECKED else UNCHECKED in
    rows ++ [mkRow mark (pretty (h_id h)) (h_type h) (h_title h)
                   (PyStr.join "," (h_tags h)) (h_id h)].

(** [refresh_table]: the rows handed to the table (the status line is
    rendering only). *)
Definition refresh_table (s : HabitTUI) : list Row :=
  foldl (refresh_step (today_done_ids s) (filter_tag s)) []
        (sorted_by_id (habits_json s)).

(** ** Actions *)

(** [next((x for x in habits if x["id"]==hid), None)] *)
Definition find_habit (hid : Z) (habits : list Habit) : option Habit :=
  List.find (λ x, bool_decide (h_id x = hid)) habits.

(** [entries_json.setdefault("days", {}).setdefault(dkey, [])]: the value
    under ["days"] afterwards. *)
Definition setdefault_day (e : option (gmap string (list Entry))) (dkey : string)
    : gmap string (list Entry) :=
  let days := get_days e in
  match days !! dkey with
  | Some _ => days
  | None => <[dkey := []]> days
  end.

(** [arr.remove(ex)]: drops the first element equal to [ex].  (Python raises
    [ValueError] when there is none; the only call passes an element of
    [arr].) *)
Fixpoint py_remove (ex : Entry) (arr : list Entry) : list Entry :=
  match arr with
  | [] => []
  | y :: arr' => if decide (y = ex) then arr' else y :: py_remove ex arr'
  end.

(** [r["id"]==hid and r.get("val") is True] *)
Definition checked_by (hid : Z) (r : Entry) : bool :=
  bool_decide (r_id r = hid) && val_is_true r.

(** The check branch of [action_toggle_check] on the list of the day. *)
Definition toggle_arr (now : string) (hid : Z) (arr : list Entry) : list Entry :=
  match List.find (checked_by hid) arr with
  | Some ex => py_remove ex arr
  | None => arr ++ [mkEntry hid now VTrue]
  end.

(** [action_toggle_check], for the row with ID [hid] under the cursor.  The
    second component is the habit the [LogInputScreen] is built for, when
    the habit found is not of type check and the method ends with the call
    of [push_screen]; what Textual does with that call is not part of the
    embedding. *)
Definition action_toggle_check (now : string) (hid : Z) (s : HabitTUI)
    : HabitTUI * option Habit :=
  match find_habit hid (habits_json s) with
  | None => (s, None)
  | Some habit =>
      let dkey := day_key s in
      let days := setdefault_day (entries_json s) dkey in
      if is_check habit then
        let arr := default [] (days !! dkey) in
        (with_entries s (Some (<[dkey := toggle_arr now hid arr]> days)), None)
      else
        (with_entries s (Some days), Some habit)
  end.

(** [action_delete_habit], for the row with ID [hid] under the cursor. *)
Definition delete_day (hid : Z) (days : gmap string (list Entry))
    (item : string * list Entry) : gmap string (list Entry) :=
  <[item.1 := filter (λ r, r_id r ≠ hid) item.2]> days.

Definition action_delete_habit (hid : Z) (s : HabitTUI) : HabitTUI :=
  let habits := filter (λ x, h_id x ≠ hid) (habits_json s) in
  let entries :=
    match entries_json s with
    | None => None
    | Some days => Some (foldl (delete_day hid) days (map_to_list days))
    end in
  mkTUI habits entries (current_date s) (filter_tag s).

(** [THEMES.index(tag) if tag in THEMES else -1] *)
Definition index_or_minus1 (themes : list string) (tag : string) : Z :=
  match list_find (λ t, t = tag) themes with
  | Some (i, _) => Z.of_nat i
  | None => -1
  end.

(** The new value of [filter_tag] in [action_toggle_filter], over a theme
    list [themes].  The outer [None] is the [IndexError] of a subscript out
    of range. *)
Definition cycle_filter (themes : list string) (tag : option string)
    : option (option string) :=
  match tag with
  | None => Some <$> themes !! 0%nat
  | Some t =>
      let idx := index_or_minus1 themes t in
      if decide (0 ≤ idx)
      then Some <$> themes !! Z.to_nat ((idx + 1) `mod` Z.of_nat (length themes))
      else Some None
  end.

(** [action_toggle_filter]; [THEMES] is not empty, so no subscript fails. *)
Definition action_toggle_filter (s : HabitTUI) : HabitTUI :=
  match cycle_filter THEMES (filter_tag s) with
  | Some t => with_filter s t
  | None => s
  end.

(** ** The report *)

(** The lines of the report, before they are formatted. *)
Inductive Line :=
  | Header (dkey : string)
  | CheckLine (id : Z) (title : string)
  | LogLine (id : Z) (title val ts : string).

(** The f-strings of [action_show_report]. *)
Definition render (l : Line) : string :=
  match l with
  | Header dkey => "[b]Report " +:+ dkey +:+ "[/b]"
  | CheckLine id title => "- [x] #" +:+ pretty id +:+ " " +:+ title
  | LogLine id title val ts =>
      "- #" +:+ pretty id +:+ " " +:+ title +:+ " — " +:+ val +:+ " (" +:+ ts +:+ ")"
  end.

(** The habit id a line is about. *)
Definition line_id (l : Line) : option Z :=
  match l with
  | Header _ => None
  | CheckLine id _ => Some id
  | LogLine id _ _ _ => Some id
  end.

(** [by_id.setdefault(r["id"], []).append(r)] over [arr]. *)
Definition group_by_id (arr : list Entry) : gmap Z (list Entry) :=
  foldl (λ by_id r, <[r_id r := default [] (by_id !! r_id r) ++ [r]]> by_id) ∅ arr.

(** The inner loop for a habit that is not of type check. *)
Definition log_step (h : Habit) (lines : list Line) (r : Entry) : list Line :=
  match r_val r with
  | VStr v => lines ++ [LogLine (h_id h) (h_title h) v (r_ts r)]
  | VTrue => lines
  end.

(** The body of the loop over the habits. *)
Definition report_step (by_id : gmap Z (list Entry)) (lines : list Line) (h : Habit)
    : list Line :=
  if negb (h_active h) then lines
  else
    let logs := default [] (by_id !! h_id h) in
    if is_check h then
      if existsb val_is_true logs then lines ++ [CheckLine (h_id h) (h_title h)]
      else lines
    else foldl (log_step h) lines logs.

(** [action_show_report]: the list [lines]. *)
Definition action_show_report (s : HabitTUI) : list Line :=
  let dkey := day_key s in
  let arr := day_entries (entries_json s) dkey in
  foldl (report_step (group_by_id arr)) [Header dkey] (sorted_by_id (habits_json s)).

(** ["\n".join(lines)], the text shown in the report panel. *)
Definition report_text (s : HabitTUI) : string :=
  PyStr.join (String "010" "") (map render (action_show_report s)).

(** ** EditScreen and LogInputScreen *)

Inductive Button := BtnSave | BtnCancel.

(** The values of the three [Input] widgets of [EditScreen]. *)
Record EditInput := mkEditInput {
  title_input : string;
  tags_input : string;
  type_input : string
}.

(** [EditScreen.habit]: [None] when adding, else the dict being edited.
    The dict is an element of [habits_json["habits"]] and is updated in
    place, so it is represented by its position in that list. *)
Record EditScreen := mkEditScreen { es_habit : option nat }.

(** [action_add_habit] *)
Definition action_add_habit (s : HabitTUI) : EditScreen := mkEditScreen None.

(** [action_edit_habit]: a screen is pushed only when a habit with the ID
    under the cursor is found; the first one with that id is taken. *)
Definition action_edit_habit (hid : Z) (s : HabitTUI) : option EditScreen :=
  match list_find (λ x, h_id x = hid) (habits_json s) with
  | Some (i, _) => Some (mkEditScreen (Some i))
  | None => None
  end.

(** [[t.strip() for t in value.split(",") if t.strip()]] *)
Definition parse_tags (value : string) : list string :=
  omap (λ t, let t' := PyStr.strip t in if PyStr.truthy t' then Some t' else None)
       (PyStr.split "," value).

(** [habit.update({"title": title, "tags": tags, "type": typ})] *)
Definition habit_update (title : string) (tags : list string) (typ : string)
    (h : Habit) : Habit :=
  mkHabit (h_id h) title tags typ (h_active h).

(** [EditScreen.on_button_pressed] *)
Definition EditScreen_on_button_pressed (scr : EditScreen) (b : Button)
    (inp : EditInput) (main : HabitTUI) : HabitTUI :=
  match b with
  | BtnSave =>
      let title := PyStr.strip (title_input inp) in
      let tags := parse_tags (tags_input inp) in
      let typ := PyStr.or_else (PyStr.strip (type_input inp)) "check" in
      let hjson := habits_json main in
      match es_habit scr with
      | Some i => with_habits main (alter (habit_update title tags typ) i hjson)
      | None =>
          let hid := next_id hjson in
          with_habits main (hjson ++ [mkHabit hid title tags typ true])
      end
  | BtnCancel => main
  end.

(** Key [a], then the save button. *)
Definition add_habit (inp : EditInput) (s : HabitTUI) : HabitTUI :=
  EditScreen_on_button_pressed (action_add_habit s) BtnSave inp s.

(** Key [e] on the row with ID [hid], then the save button. *)
Definition edit_habit (hid : Z) (inp : EditInput) (s : HabitTUI) : HabitTUI :=
  match action_edit_habit hid s with
  | Some scr => EditScreen_on_button_pressed scr BtnSave inp s
  | None => s
  end.

(** [LogInputScreen.on_button_pressed] *)
Definition LogInputScreen_on_button_pressed (now : string) (habit : Habit)
    (b : Button) (text_input : string) (main : HabitTUI) : HabitTUI :=
  match b with
  | BtnSave =>
      let txt := PyStr.strip text_input in
      if PyStr.truthy txt then
        let dkey := day_key main in
        let days := setdefault_day (entries_json main) dkey in
        let arr := default [] (days !! dkey) in
        with_entries main
          (Some (<[dkey := arr ++ [mkEntry (h_id habit) now (VStr txt)]]> days))
      else main
  | BtnCancel => main
  end.

(** ** Derived notions used in the statements *)

(** The completion state of [(hid, dkey)]: some record of the day has that
    id and [val] boolean true. *)
Definition completed (e : option (gmap string (list Entry))) (dkey : string) (hid : Z)
    : bool :=
  existsb (checked_by hid) (day_entries e dkey).

(** The number of such records. *)
Definition true_count (e : option (gmap string (list Entry))) (dkey : string) (hid : Z)
    : nat :=
  length (List.filter (checked_by hid) (day_entries e dkey)).

(** The transition function as the specification words it: [None] to the
    first theme, each theme to the next one, the last theme to [None], and
    a tag outside the list to the first theme. *)
Definition cycle_filter_as_specified (themes : list string) : Prop :=
  (∀ t1, themes !! 0%nat = Some t1 → cycle_filter themes None = Some (Some t1)) ∧
  (∀ i ti tj, themes !! i = Some ti → themes !! S i = Some tj →
     cycle_filter themes (Some ti) = Some (Some tj)) ∧
  (∀ tn, last themes = Some tn → cycle_filter themes (Some tn) = Some None) ∧
  (∀ t t1, t ∉ themes → themes !! 0%nat = Some t1 →
     cycle_filter themes (Some t) = Some (Some t1)).

(** [visible_rows] in the words of the specification: the active habits
    that pass the tag filter, in ascending id order, each with its done
    mark. *)
Definition visible (ft : option string) (h : Habit) : bool :=
  h_active h && negb (filtered_out ft h).

Definition row_of (done : gset Z) (h : Habit) : Row :=
  mkRow (if bool_decide (h_id h ∈ done) then CHECKED else UNCHECKED)
        (pretty (h_id h)) (h_type h) (h_title h)
        (PyStr.join "," (h_tags h)) (h_id h).

Definition visible_rows (s : HabitTUI) : list Row :=
  map (row_of (today_done_ids s))
      (filter (λ h, visible (filter_tag s) h) (sorted_by_id (habits_json s))).

(** [build_report] in the words of the specification: for a check habit
    one line iff a record of the day has its id and [val == true]; for
    any other habit one line per string-valued record of the day with its
    id, in the stored order. *)
Definition log_line (h : Habit) (r : Entry) : option Line :=
  match r_val r with
  | VStr v => Some (LogLine (h_id h) (h_title h) v (r_ts r))
  | VTrue => None
  end.

Definition habit_lines (arr : list Entry) (h : Habit) : list Line :=
  if is_check h then
    if existsb (checked_by (h_id h)) arr then [CheckLine (h_id h) (h_title h)] else []
  else
    omap (log_line h) (filter (λ r, r_id r = h_id h) arr).

Definition build_report (s : HabitTUI) : list Line :=
  Header (day_key s)
  :: flat_map (habit_lines (day_entries (entries_json s) (day_key s)))
              (filter (λ h, h_active h) (sorted_by_id (habits_json s))).

(** A record that makes habit [h] show up in the report. *)
Definition qualifies (h : Habit) (r : Entry) : Prop :=
  r_id r = h_id h ∧
  if is_check h then r_val r = VTrue else ∃ v, r_val r = VStr v.

(** ** States used in the examples *)

(** A store with two boolean-true records of habit 1 on one day. *)
Definition two_checks : HabitTUI :=
  mkTUI [mkHabit 1 "Sleep by 11" [] "check" true]
        (Some {[ "2024-01-01" := [mkEntry 1 "08:00:00" VTrue;
                                  mkEntry 1 "09:00:00" VTrue] ]})
        "2024-01-01" None.

(** An empty store on the first of January 2024. *)
Definition empty_store : HabitTUI := mkTUI [] None "2024-01-01" None.

(** One check-type habit and no entries document yet. *)
Definition one_habit : HabitTUI :=
  mkTUI [mkHabit 1 "Sleep by 11" [] "check" true] None "2024-01-01" None.

(** A check-type habit whose only record of the day is the string "true",
    next to a log-type habit with two records. *)
Definition string_true : HabitTUI :=
  mkTUI [mkHabit 2 "Mood" ["정신·태도"] "log" true;
         mkHabit 1 "Sleep by 11" [] "check" true]
        (Some {[ "2024-01-01" := [mkEntry 2 "09:00:00" (VStr "great");
                                  mkEntry 1 "09:30:00" (VStr "true");
                                  mkEntry 2 "21:00:00" (VStr "tired")] ]})
        "2024-01-01" None.

(** ** Further operations and notions *)

(** The characters of a string, as a list. *)
Definition chars (s : string) : list ascii := String.list_ascii_of_string s.

(** [c in s] for a one-character string [c]. *)
Fixpoint has_char (c : ascii) (s : string) : bool :=
  match s with
  | EmptyString => false
  | String a s' => bool_decide (a = c) || has_char c s'
  end.

(** A character recognised by [t1], [t2] or [t3] is at the head of [s]. *)
Definition starts_with (t1 : ascii → bool) (t2 : ascii → ascii → bool)
    (t3 : ascii → ascii → ascii → bool) (s : string) : bool :=
  match s with
  | String a s1 =>
      t1 a
      || match s1 with
         | String b s2 =>
             t2 a b
             || match s2 with
                | String c _ => t3 a b c
                | EmptyString => false
                end
         | EmptyString => false
         end
  | EmptyString => false
  end.

(** [EditScreen.compose]: the values the three [Input] widgets start
    with; the habit's own title, its tags joined by commas and its type
    when editing, and empty fields with type ["check"] when adding. *)
Definition EditScreen_compose (scr : EditScreen) (main : HabitTUI) : EditInput :=
  match es_habit scr ≫= (λ i, habits_json main !! i) with
  | Some h => mkEditInput (h_title h) (PyStr.join "," (h_tags h)) (h_type h)
  | None => mkEditInput "" "" "check"
  end.

(** A tag that the tags field gives back as typed: not empty, without a
    comma and left as it is by [strip]. *)
Definition clean_tag (t : string) : Prop :=
  PyStr.strip t = t ∧ t ≠ "" ∧ has_char "," t = false.

(** The value [action_toggle_filter] gives to [filter_tag]. *)
Definition next_tag (tag : option string) : option string :=
  match cycle_filter THEMES tag with
  | Some t => t
  | None => tag
  end.

(** The status line of [refresh_table]: the day, [len(rows)], the tag
    filter ([-] when it is unset or empty) and [len(done)]. *)
Definition status_total (s : HabitTUI) : nat := length (refresh_table s).

Definition status_progress (s : HabitTUI) : nat := size (today_done_ids s).

Definition status_text (s : HabitTUI) : string :=
  "[b]" +:+ day_key s +:+ "[/b]  총 " +:+ pretty (status_total s) +:+ "개  필터: "
  +:+ match filter_tag s with
      | Some t => PyStr.or_else t "-"
      | None => "-"
      end
  +:+ "  진행: " +:+ pretty (status_progress s) +:+ "개".

(** What the user does: a key of [BINDINGS], followed by the button (and
    the field values) of the dialog the key opens, if it opens one. *)
Inductive Action :=
  | KeySpace (now : string) (hid : Z) (b : Button) (text : string)
  | KeyAdd (b : Button) (inp : EditInput)
  | KeyEdit (hid : Z) (b : Button) (inp : EditInput)
  | KeyDelete (hid : Z)
  | KeyFilter.

(** Space on the row with ID [hid]: [action_toggle_check] and, when it
    pushes the log dialog, the button pressed there. *)
Definition press_space (now : string) (hid : Z) (b : Button) (text : string)
    (s : HabitTUI) : HabitTUI :=
  match action_toggle_check now hid s with
  | (s', Some habit) => LogInputScreen_on_button_pressed now habit b text s'
  | (s', None) => s'
  end.

Definition perform (s : HabitTUI) (a : Action) : HabitTUI :=
  match a with
  | KeySpace now hid b text => press_space now hid b text s
  | KeyAdd b inp => EditScreen_on_button_pressed (action_add_habit s) b inp s
  | KeyEdit hid b inp =>
      match action_edit_habit hid s with
      | Some scr => EditScreen_on_button_pressed scr b inp s
      | None => s
      end
  | KeyDelete hid => action_delete_habit hid s
  | KeyFilter => action_toggle_filter s
  end.

Definition run (acts : list Action) (s : HabitTUI) : HabitTUI :=
  foldl perform s acts.

(** No two habits share an id. *)
Definition unique_ids (s : HabitTUI) : Prop := NoDup (map h_id (habits_json s)).

(** No day holds two boolean-true records of one habit. *)
Definition single_checks (s : HabitTUI) : Prop :=
  ∀ d hid, (true_count (entries_json s) d hid ≤ 1)%nat.

(** The documents [Store.__init__] writes on the first run. *)
Definition first_run (today : string) : HabitTUI := mkTUI [] (Some ∅) today None.

(** Lines in the order of the ids they are about. *)
Definition line_le (l1 l2 : Line) : Prop :=
  ∀ i j, line_id l1 = Some i → line_id l2 = Some j → i ≤ j.

(** * Properties *)

(** ** Store.next_id *)

Section NextId.

Lemma py_max_lower (x : Z) (l : list Z) : x ≤ py_max x l.
Proof.
  unfold py_max. revert x.
  induction l as [|y l IH]; intros x; simpl; [lia|].
  specialize (IH (Z.max x y)). lia.
Qed.

Lemma py_max_upper (x : Z) (l : list Z) (y : Z) : y ∈ l → y ≤ py_max x l.
Proof.
  unfold py_max. revert x.
  induction l as [|z l IH]; intros x Hy; simpl.
  - by apply elem_of_nil in Hy.
  - apply elem_of_cons in Hy as [->|Hy].
    + pose proof (py_max_lower (Z.max x z) l) as Hlow.
      unfold py_max in Hlow. lia.
    + by apply IH.
Qed.

Lemma py_max_elem (x : Z) (l : list Z) : py_max x l ∈ x :: l.
Proof.
  unfold py_max. revert x.
  induction l as [|z l IH]; intros x; simpl; [set_solver|].
  specialize (IH (Z.max x z)).
  apply elem_of_cons in IH as [Heq|Hin]; [|set_solver].
  rewrite Heq. destruct (Z.max_spec x z) as [[_ ->]|[_ ->]]; set_solver.
Qed.

Lemma next_id_fresh (habits : list Habit) (h : Habit) :
  h ∈ habits → h_id h < next_id habits.
Proof.
  intros Hin. destruct habits as [|h0 habits]; [by apply elem_of_nil in Hin|].
  unfold next_id. simpl.
  assert (h_id h ≤ py_max (h_id h0) (map h_id habits)); [|lia].
  apply elem_of_cons in Hin as [->|Hin]; [apply py_max_lower|].
  apply py_max_upper, list_elem_of_fmap. eauto.
Qed.

(** C5: [next_id] is 1 on the empty habit list and otherwise one more
    than the greatest id in the list; for ids 1 and 3 it is 4. *)
Theorem next_id_max_plus_one (habits : list Habit) :
  (habits = [] → next_id habits = 1) ∧
  (habits ≠ [] →
     ∃ m, m ∈ map h_id habits ∧
          (∀ i, i ∈ map h_id habits → i ≤ m) ∧
          next_id habits = m + 1) ∧
  (∀ a b, h_id a = 1 → h_id b = 3 →
     next_id [a; b] = 4 ∧ next_id [b; a] = 4).
Proof.
  split; [by intros ->|]. split.
  - intros Hne. destruct habits as [|h habits]; [done|].
    exists (py_max (h_id h) (map h_id habits)). unfold next_id. simpl.
    split; [apply py_max_elem|]. split; [|done].
    intros i Hi. apply elem_of_cons in Hi as [->|Hi].
    + apply py_max_lower.
    + by apply py_max_upper.
  - intros a b Ha Hb. unfold next_id, py_max. simpl.
    rewrite Ha, Hb. done.
Qed.

End NextId.

(** ** sorted *)

Section Sorted.

Definition id_le (a b : Habit) : Prop := h_id a ≤ h_id b.

Lemma insert_by_id_perm (h : Habit) (l : list Habit) :
  insert_by_id h l ≡ₚ h :: l.
Proof.
  induction l as [|y l IH]; simpl; [done|].
  case_decide; [done|].
  rewrite IH. apply Permutation_swap.
Qed.

Lemma sorted_by_id_perm (l : list Habit) : sorted_by_id l ≡ₚ l.
Proof.
  induction l as [|h l IH]; simpl; [done|].
  by rewrite insert_by_id_perm, IH.
Qed.

Lemma elem_of_sorted_by_id (h : Habit) (l : list Habit) :
  h ∈ sorted_by_id l ↔ h ∈ l.
Proof. by rewrite sorted_by_id_perm. Qed.

Lemma insert_by_id_sorted (h : Habit) (l : list Habit) :
  StronglySorted id_le l → StronglySorted id_le (insert_by_id h l).
Proof.
  induction 1 as [|y l Hs IH Hall]; simpl.
  - repeat constructor.
  - case_decide as Hle.
    + constructor; [by constructor|].
      constructor; [done|].
      eapply Forall_impl; [exact Hall|].
      unfold id_le. intros z Hz. lia.
    + constructor; [done|].
      rewrite insert_by_id_perm. constructor; [|done].
      unfold id_le. lia.
Qed.

Lemma sorted_by_id_sorted (l : list Habit) :
  StronglySorted id_le (sorted_by_id l).
Proof.
  induction l as [|h l IH]; simpl; [constructor|].
  by apply insert_by_id_sorted.
Qed.

Lemma StronglySorted_filter (P : Habit → Prop) `{!∀ h, Decision (P h)}
    (l : list Habit) :
  StronglySorted id_le l → StronglySorted id_le (filter P l).
Proof.
  induction 1 as [|y l Hs IH Hall]; [constructor|].
  rewrite filter_cons. case_decide; [|done].
  constructor; [done|].
  apply Forall_forall. intros z Hz%list_elem_of_filter.
  rewrite Forall_forall in Hall. apply Hall, Hz.
Qed.

End Sorted.

(** ** action_toggle_filter *)

Section Filter.

Lemma index_or_minus1_lookup (themes : list string) (i : nat) (t : string) :
  NoDup themes → themes !! i = Some t → index_or_minus1 themes t = Z.of_nat i.
Proof.
  intros Hnd Hi. unfold index_or_minus1.
  destruct (list_find _ themes) as [[j y]|] eqn:Hfind.
  - apply list_find_Some in Hfind as (Hj & -> & _).
    by rewrite (NoDup_lookup themes i j t).
  - apply list_find_None in Hfind. rewrite Forall_forall in Hfind.
    destruct (Hfind t); [|done]. by eapply list_elem_of_lookup_2.
Qed.

Lemma index_or_minus1_absent (themes : list string) (t : string) :
  t ∉ themes → index_or_minus1 themes t = -1.
Proof.
  intros Hnot. unfold index_or_minus1.
  destruct (list_find _ themes) as [[j y]|] eqn:Hfind; [|done].
  apply list_find_Some in Hfind as (Hj & -> & _).
  destruct Hnot. by eapply list_elem_of_lookup_2.
Qed.

Lemma cycle_filter_at (themes : list string) (i : nat) (t : string) :
  NoDup themes → themes !! i = Some t →
  cycle_filter themes (Some t)
  = Some <$> themes !! Z.to_nat ((Z.of_nat i + 1) `mod` Z.of_nat (length themes)).
Proof.
  intros Hnd Hi. unfold cycle_filter.
  rewrite (index_or_minus1_lookup themes i t Hnd Hi).
  case_decide; [done|lia].
Qed.

(** C3 (as amended): over a duplicate-free theme list [T1..Tn], [None]
    goes to [T1], each [Ti] with [i < n] goes to [Ti+1], the last theme
    [Tn] wraps around to [T1], and a tag that is not in the list goes to
    [None]. *)
Theorem cycle_filter_transitions (themes : list string) (t1 : string) :
  NoDup themes → themes !! 0%nat = Some t1 →
  cycle_filter themes None = Some (Some t1) ∧
  (∀ i ti tj, themes !! i = Some ti → themes !! S i = Some tj →
     cycle_filter themes (Some ti) = Some (Some tj)) ∧
  (∀ tn, last themes = Some tn → cycle_filter themes (Some tn) = Some (Some t1)) ∧
  (∀ t, t ∉ themes → cycle_filter themes (Some t) = Some None).
Proof.
  intros Hnd H0. repeat split.
  - simpl. by rewrite H0.
  - intros i ti tj Hi Hj.
    rewrite (cycle_filter_at themes i ti Hnd Hi).
    apply lookup_lt_Some in Hj as Hlt.
    rewrite Z.mod_small by lia.
    replace (Z.to_nat (Z.of_nat i + 1)) with (S i) by lia.
    by rewrite Hj.
  - intros tn Hlast. rewrite last_lookup in Hlast.
    apply lookup_lt_Some in H0 as Hlen.
    rewrite (cycle_filter_at themes _ tn Hnd Hlast).
    replace (Z.of_nat (pred (length themes)) + 1) with (Z.of_nat (length themes)) by lia.
    rewrite Z.mod_same by lia.
    change (Z.to_nat 0) with 0%nat. by rewrite H0.
  - intros t Hnot. unfold cycle_filter.
    rewrite (index_or_minus1_absent themes t Hnot).
    case_decide; [lia|done].
Qed.

Lemma THEMES_NoDup : NoDup THEMES.
Proof. apply (bool_decide_unpack _). vm_compute. exact I. Qed.

Lemma cycle_filter_transitions_witness :
  cycle_filter THEMES None = Some (Some "수면·환경") ∧
  (∀ i ti tj, THEMES !! i = Some ti → THEMES !! S i = Some tj →
     cycle_filter THEMES (Some ti) = Some (Some tj)) ∧
  (∀ tn, last THEMES = Some tn →
     cycle_filter THEMES (Some tn) = Some (Some "수면·환경")) ∧
  (∀ t, t ∉ THEMES → cycle_filter THEMES (Some t) = Some None).
Proof.
  apply (cycle_filter_transitions THEMES "수면·환경");
    [apply THEMES_NoDup | reflexivity].
Defined.

(** C3 (as stated) fails on [THEMES]: from the last theme the filter goes
    back to the first theme, not to [None], and an unrelated tag goes to
    [None], not to the first theme. *)
Lemma cycle_filter_last_theme_wraps :
  cycle_filter THEMES (Some "정체성·자기표현") = Some (Some "수면·환경") ∧
  cycle_filter THEMES (Some "unrelated") = Some None ∧
  ¬ cycle_filter_as_specified THEMES.
Proof.
  split; [reflexivity|]. split; [reflexivity|].
  intros (_ & _ & Hlast & _).
  by specialize (Hlast "정체성·자기표현" eq_refl).
Qed.

(** [action_toggle_filter] never hits the out-of-range case. *)
Lemma action_toggle_filter_total (s : HabitTUI) :
  ∃ t, cycle_filter THEMES (filter_tag s) = Some t ∧
       action_toggle_filter s = with_filter s t.
Proof.
  unfold action_toggle_filter.
  destruct (filter_tag s) as [t|]; [|by eexists].
  unfold cycle_filter. case_decide as Hidx; [|by eexists].
  assert (Z.to_nat ((index_or_minus1 THEMES t + 1) `mod` Z.of_nat (length THEMES))
          < length THEMES)%nat as Hlt.
  { pose proof (Z.mod_pos_bound (index_or_minus1 THEMES t + 1)
                  (Z.of_nat (length THEMES))) as Hb.
    simpl in *. lia. }
  apply lookup_lt_is_Some in Hlt as [x Hx].
  rewrite Hx. by eexists.
Qed.

End Filter.

(** ** action_toggle_check *)

Section Toggle.

Lemma py_remove_found_count (hid : Z) (arr : list Entry) (ex : Entry) :
  List.find (checked_by hid) arr = Some ex →
  length (List.filter (checked_by hid) (py_remove ex arr))
  = pred (length (List.filter (checked_by hid) arr)).
Proof.
  induction arr as [|y arr IH]; simpl; [done|].
  destruct (checked_by hid y) eqn:Hy.
  - intros [= ->]. by rewrite decide_True.
  - intros Hfind. case_decide as Heq.
    + apply find_some in Hfind as [_ Hex]. congruence.
    + simpl. rewrite Hy. by apply IH.
Qed.

Lemma find_none_count (hid : Z) (arr : list Entry) :
  List.find (checked_by hid) arr = None →
  List.filter (checked_by hid) arr = [].
Proof.
  induction arr as [|y arr IH]; simpl; [done|].
  destruct (checked_by hid y); [done|]. exact IH.
Qed.

Lemma find_some_count (hid : Z) (arr : list Entry) (ex : Entry) :
  List.find (checked_by hid) arr = Some ex →
  List.filter (checked_by hid) arr ≠ [].
Proof.
  induction arr as [|y arr IH]; simpl; [done|].
  destruct (checked_by hid y); [done|]. exact IH.
Qed.

(** One toggle on the list of the day: no true record of [hid] means one
    is appended, otherwise exactly one of them is removed. *)
Lemma toggle_arr_count (now : string) (hid : Z) (arr : list Entry) :
  length (List.filter (checked_by hid) (toggle_arr now hid arr))
  = match length (List.filter (checked_by hid) arr) with
    | O => 1%nat
    | S n => n
    end.
Proof.
  unfold toggle_arr.
  destruct (List.find (checked_by hid) arr) as [ex|] eqn:Hfind.
  - rewrite (py_remove_found_count hid arr ex Hfind).
    apply find_some_count in Hfind.
    by destruct (List.filter (checked_by hid) arr).
  - rewrite List.filter_app, (find_none_count hid arr Hfind). simpl.
    unfold checked_by, val_is_true. simpl.
    by rewrite bool_decide_eq_true_2.
Qed.

Lemma existsb_count (hid : Z) (arr : list Entry) :
  existsb (checked_by hid) arr
  = negb (Nat.eqb (length (List.filter (checked_by hid) arr)) 0).
Proof.
  induction arr as [|y arr IH]; simpl; [done|].
  destruct (checked_by hid y); simpl; [done|exact IH].
Qed.

Lemma completed_count (e : option (gmap string (list Entry))) (dkey : string)
    (hid : Z) :
  completed e dkey hid = negb (Nat.eqb (true_count e dkey hid) 0).
Proof. apply existsb_count. Qed.

Lemma setdefault_day_lookup (e : option (gmap string (list Entry)))
    (dkey d : string) :
  default [] (setdefault_day e dkey !! d) = day_entries e d.
Proof.
  unfold setdefault_day, day_entries.
  destruct (get_days e !! dkey) eqn:Hd; [done|].
  destruct (decide (dkey = d)) as [->|Hne].
  - by rewrite lookup_insert_eq, Hd.
  - by rewrite lookup_insert_ne.
Qed.

Lemma day_entries_insert (days : gmap string (list Entry)) (dkey : string)
    (arr : list Entry) :
  day_entries (Some (<[dkey := arr]> days)) dkey = arr.
Proof. unfold day_entries. simpl. by rewrite lookup_insert_eq. Qed.

Lemma day_entries_insert_ne (days : gmap string (list Entry)) (dkey d : string)
    (arr : list Entry) :
  dkey ≠ d →
  day_entries (Some (<[dkey := arr]> days)) d = day_entries (Some days) d.
Proof. intros Hne. unfold day_entries. simpl. by rewrite lookup_insert_ne. Qed.

(** The check branch, as one equation. *)
Lemma action_toggle_check_check (now : string) (hid : Z) (s : HabitTUI) (h : Habit) :
  find_habit hid (habits_json s) = Some h → is_check h = true →
  action_toggle_check now hid s
  = (with_entries s
       (Some (<[day_key s :=
                  toggle_arr now hid (day_entries (entries_json s) (day_key s))]>
                (setdefault_day (entries_json s) (day_key s)))),
     None).
Proof.
  intros Hfind Hcheck. unfold action_toggle_check.
  by rewrite Hfind, Hcheck, setdefault_day_lookup.
Qed.

Lemma toggle_true_count (now : string) (hid : Z) (s : HabitTUI) (h : Habit) :
  find_habit hid (habits_json s) = Some h → is_check h = true →
  let s1 := (action_toggle_check now hid s).1 in
  habits_json s1 = habits_json s ∧ day_key s1 = day_key s ∧
  true_count (entries_json s1) (day_key s) hid
  = match true_count (entries_json s) (day_key s) hid with
    | O => 1%nat
    | S n => n
    end.
Proof.
  intros Hfind Hcheck.
  rewrite (action_toggle_check_check now hid s h Hfind Hcheck). simpl.
  split; [done|]. split; [done|].
  unfold true_count. rewrite day_entries_insert. apply toggle_arr_count.
Qed.

(** Toggling keeps the days with at most one boolean-true record per
    habit that way. *)
Lemma toggle_keeps_at_most_one (now : string) (hid : Z) (s : HabitTUI) (h : Habit) :
  find_habit hid (habits_json s) = Some h → is_check h = true →
  (true_count (entries_json s) (day_key s) hid ≤ 1)%nat →
  (true_count (entries_json (action_toggle_check now hid s).1) (day_key s) hid
   ≤ 1)%nat.
Proof.
  intros Hfind Hcheck Hle.
  destruct (toggle_true_count now hid s h Hfind Hcheck) as (_ & _ & ->).
  destruct (true_count (entries_json s) (day_key s) hid); lia.
Qed.

(** C1 (as amended): for a check-type habit found under the cursor, two
    toggles in a row give back the completion state of the day, provided
    the day does not hold exactly two boolean-true records of the habit;
    with at most one such record, each toggle flips the state. *)
Theorem toggle_twice_restores_completed (now1 now2 : string) (hid : Z)
    (s : HabitTUI) (h : Habit) :
  find_habit hid (habits_json s) = Some h → is_check h = true →
  true_count (entries_json s) (day_key s) hid ≠ 2%nat →
  let s1 := (action_toggle_check now1 hid s).1 in
  let s2 := (action_toggle_check now2 hid s1).1 in
  completed (entries_json s2) (day_key s) hid
  = completed (entries_json s) (day_key s) hid ∧
  ((true_count (entries_json s) (day_key s) hid ≤ 1)%nat →
   completed (entries_json s1) (day_key s) hid
   = negb (completed (entries_json s) (day_key s) hid)).
Proof.
  intros Hfind Hcheck Hcount s1 s2.
  destruct (toggle_true_count now1 hid s h Hfind Hcheck) as (Hh1 & Hd1 & Hc1).
  fold s1 in Hh1, Hd1, Hc1.
  destruct (toggle_true_count now2 hid s1 h) as (_ & _ & Hc2);
    [by rewrite Hh1|done|].
  fold s2 in Hc2. rewrite Hd1 in Hc2.
  rewrite !completed_count, Hc2, Hc1.
  destruct (true_count (entries_json s) (day_key s) hid) as [|[|[|n]]];
    simpl; try done; split; try done; lia.
Qed.

(** C1 (as stated) fails on [two_checks]: the day is completed before the
    two toggles and not completed after them, each toggle having removed
    one of the two records. *)
Lemma toggle_twice_two_checks :
  let s1 := (action_toggle_check "10:00:00" 1 two_checks).1 in
  let s2 := (action_toggle_check "10:00:01" 1 s1).1 in
  completed (entries_json two_checks) "2024-01-01" 1 = true ∧
  completed (entries_json s1) "2024-01-01" 1 = true ∧
  completed (entries_json s2) "2024-01-01" 1 = false ∧
  completed (entries_json s2) "2024-01-01" 1
  ≠ completed (entries_json two_checks) "2024-01-01" 1.
Proof. vm_compute. done. Qed.

Lemma toggle_twice_restores_completed_witness :
  let s := one_habit in
  let s1 := (action_toggle_check "10:00:00" 1 s).1 in
  let s2 := (action_toggle_check "10:00:01" 1 s1).1 in
  completed (entries_json s2) (day_key s) 1
  = completed (entries_json s) (day_key s) 1 ∧
  ((true_count (entries_json s) (day_key s) 1 ≤ 1)%nat →
   completed (entries_json s1) (day_key s) 1
   = negb (completed (entries_json s) (day_key s) 1)).
Proof.
  apply (toggle_twice_restores_completed "10:00:00" "10:00:01" 1 one_habit
           (mkHabit 1 "Sleep by 11" [] "check" true));
    [reflexivity | reflexivity | vm_compute; lia].
Defined.

End Toggle.

(** ** Loops that only append *)

Section Loops.

Context {A B : Type}.

(** A loop whose body appends [g x] to the accumulator builds the
    concatenation of the [g x]. *)
Lemma foldl_append (f : list A → B → list A) (g : B → list A) :
  (∀ acc x, f acc x = acc ++ g x) →
  ∀ l acc, foldl f acc l = acc ++ flat_map g l.
Proof.
  intros Hf l. induction l as [|x l IH]; intros acc; simpl.
  - by rewrite app_nil_r.
  - by rewrite IH, Hf, <-app_assoc.
Qed.

End Loops.

(** ** today_done_ids and refresh_table *)

Section Table.

Lemma elem_of_today_done_ids (s : HabitTUI) (i : Z) :
  i ∈ today_done_ids s ↔
  ∃ r, r ∈ day_entries (entries_json s) (day_key s) ∧ r_id r = i ∧
       (r_val r = VTrue ∨ ∃ v, r_val r = VStr v).
Proof.
  unfold today_done_ids.
  induction (day_entries (entries_json s) (day_key s)) as [|r arr IH] using rev_ind.
  - simpl. split; [set_solver|]. intros (r & Hr & _). by apply elem_of_nil in Hr.
  - rewrite foldl_app. simpl.
    assert (val_is_true r || val_is_str r = true) as ->
      by (unfold val_is_true, val_is_str; by destruct (r_val r)).
    rewrite elem_of_union, elem_of_singleton, IH. split.
    + intros [->|(r' & Hr' & Hid & Hval)].
      * exists r. split; [apply elem_of_app; right; by apply list_elem_of_singleton|].
        split; [done|]. destruct (r_val r); eauto.
      * exists r'. split; [apply elem_of_app; by left|done].
    + intros (r' & Hr' & Hid & Hval).
      apply elem_of_app in Hr' as [Hr'|Hr'].
      * right. eauto.
      * apply list_elem_of_singleton in Hr' as ->. by left.
Qed.

Lemma refresh_step_row (done : gset Z) (ft : option string)
    (rows : list Row) (h : Habit) :
  refresh_step done ft rows h
  = rows ++ (if visible ft h then [row_of done h] else []).
Proof.
  unfold refresh_step, visible, row_of.
  destruct (h_active h), (filtered_out ft h); simpl; by rewrite ?app_nil_r.
Qed.

(** The loop of [refresh_table] computes [visible_rows]. *)
Lemma refresh_table_visible_rows (s : HabitTUI) :
  refresh_table s = visible_rows s.
Proof.
  unfold refresh_table, visible_rows.
  rewrite (foldl_append _ _ (refresh_step_row _ _)). simpl.
  induction (sorted_by_id (habits_json s)) as [|h l IH]; simpl; [done|].
  rewrite IH, filter_cons. by destruct (visible (filter_tag s) h).
Qed.

Lemma elem_of_refresh_table (s : HabitTUI) (row : Row) :
  row ∈ refresh_table s ↔
  ∃ h, h ∈ habits_json s ∧ visible (filter_tag s) h = true ∧
       row = row_of (today_done_ids s) h.
Proof.
  rewrite refresh_table_visible_rows. unfold visible_rows.
  rewrite list_elem_of_fmap. split.
  - intros (h & -> & Hh). apply list_elem_of_filter in Hh as [Hv Hh].
    rewrite elem_of_sorted_by_id in Hh. apply Is_true_true in Hv.
    by exists h.
  - intros (h & Hh & Hv & ->). exists h. split; [done|].
    apply list_elem_of_filter. rewrite elem_of_sorted_by_id.
    split; [by apply Is_true_true|done].
Qed.

Lemma CHECKED_UNCHECKED : CHECKED ≠ UNCHECKED.
Proof. done. Qed.

End Table.

(** ** action_show_report *)

Section Report.

Lemma group_by_id_snoc (arr : list Entry) (r : Entry) :
  group_by_id (arr ++ [r])
  = <[r_id r := default [] (group_by_id arr !! r_id r) ++ [r]]> (group_by_id arr).
Proof. unfold group_by_id. by rewrite foldl_app. Qed.

(** [by_id.get(i, [])] holds the records of the day with id [i], in the
    stored order. *)
Lemma group_by_id_lookup (arr : list Entry) (i : Z) :
  default [] (group_by_id arr !! i) = filter (λ r, r_id r = i) arr.
Proof.
  induction arr as [|r arr IH] using rev_ind; [done|].
  rewrite group_by_id_snoc, filter_app, filter_cons, filter_nil.
  destruct (decide (r_id r = i)) as [->|Hne].
  - by rewrite lookup_insert_eq, IH.
  - by rewrite lookup_insert_ne, IH, app_nil_r.
Qed.

Lemma existsb_checked_by (arr : list Entry) (i : Z) :
  existsb val_is_true (filter (λ r, r_id r = i) arr) = existsb (checked_by i) arr.
Proof.
  induction arr as [|r arr IH]; [done|].
  rewrite filter_cons. unfold checked_by at 1. simpl.
  case_decide as Hid.
  - rewrite (bool_decide_eq_true_2 _ Hid). simpl. by rewrite IH.
  - rewrite (bool_decide_eq_false_2 _ Hid). simpl. by rewrite IH.
Qed.

Lemma log_step_line (h : Habit) (lines : list Line) (r : Entry) :
  log_step h lines r = lines ++ option_list (log_line h r).
Proof.
  unfold log_step, log_line. destruct (r_val r); simpl; by rewrite ?app_nil_r.
Qed.

Lemma flat_map_option_list {A B} (f : A → option B) (l : list A) :
  flat_map (λ x, option_list (f x)) l = omap f l.
Proof.
  induction l as [|x l IH]; [done|].
  simpl. rewrite IH. by destruct (f x).
Qed.

Lemma report_step_lines (arr : list Entry) (lines : list Line) (h : Habit) :
  report_step (group_by_id arr) lines h
  = lines ++ (if h_active h then habit_lines arr h else []).
Proof.
  unfold report_step, habit_lines.
  destruct (h_active h); simpl; [|by rewrite app_nil_r].
  rewrite group_by_id_lookup. destruct (is_check h).
  - rewrite existsb_checked_by.
    destruct (existsb _ arr); by rewrite ?app_nil_r.
  - by rewrite (foldl_append _ _ (log_step_line h)), flat_map_option_list.
Qed.

(** The loops of [action_show_report] compute [build_report]. *)
Lemma action_show_report_build_report (s : HabitTUI) :
  action_show_report s = build_report s.
Proof.
  unfold action_show_report, build_report.
  rewrite (foldl_append _ _ (report_step_lines _)). simpl. f_equal.
  induction (sorted_by_id (habits_json s)) as [|h l IH]; [done|].
  simpl. rewrite IH, filter_cons. by destruct (h_active h).
Qed.

Lemma checked_by_exists (arr : list Entry) (i : Z) :
  existsb (checked_by i) arr = true ↔
  ∃ r, r ∈ arr ∧ r_id r = i ∧ r_val r = VTrue.
Proof.
  rewrite existsb_exists. unfold checked_by, val_is_true. split.
  - intros (r & Hr & Hc). apply andb_true_iff in Hc as [Hid Hv].
    exists r. rewrite list_elem_of_In. apply bool_decide_eq_true in Hid.
    by destruct (r_val r).
  - intros (r & Hr & Hid & Hv). exists r. rewrite <-list_elem_of_In.
    by rewrite Hv, bool_decide_eq_true_2.
Qed.

Lemma habit_lines_check (arr : list Entry) (h : Habit) :
  is_check h = true →
  (habit_lines arr h = [CheckLine (h_id h) (h_title h)] ↔
     ∃ r, r ∈ arr ∧ r_id r = h_id h ∧ r_val r = VTrue) ∧
  (habit_lines arr h = [] ↔
     ¬ ∃ r, r ∈ arr ∧ r_id r = h_id h ∧ r_val r = VTrue).
Proof.
  intros Hc. unfold habit_lines. rewrite Hc, <-checked_by_exists.
  destruct (existsb _ arr); split; split; done.
Qed.

(** One line per string-valued record with the id of the habit, in the
    stored order, carrying the value and the time stamp of the record. *)
Lemma habit_lines_log (arr : list Entry) (h : Habit) :
  is_check h = false →
  Forall2 (λ l r, ∃ v, r_val r = VStr v ∧
                       l = LogLine (h_id h) (h_title h) v (r_ts r))
          (habit_lines arr h)
          (filter (λ r, r_id r = h_id h ∧ val_is_str r = true) arr).
Proof.
  intros Hc. unfold habit_lines. rewrite Hc.
  induction arr as [|r arr IH]; [constructor|].
  rewrite !filter_cons.
  destruct (decide (r_id r = h_id h)) as [Hid|Hid].
  - simpl. unfold log_line at 1. destruct (r_val r) as [|v] eqn:Hv.
    + rewrite decide_False; [exact IH|].
      unfold val_is_str. rewrite Hv. by intros [_ ?].
    + rewrite decide_True; [|unfold val_is_str; by rewrite Hv].
      constructor; [|exact IH]. by exists v.
  - rewrite decide_False by (by intros [? _]). exact IH.
Qed.

Lemma habit_lines_nil (arr : list Entry) (h : Habit) :
  habit_lines arr h = [] ↔ ∀ r, r ∈ arr → ¬ qualifies h r.
Proof.
  unfold qualifies. destruct (is_check h) eqn:Hc.
  - rewrite (proj2 (habit_lines_check arr h Hc)). split.
    + intros Hn r Hr [Hid Hv]. apply Hn. eauto.
    + intros Hn (r & Hr & Hid & Hv). by apply (Hn r Hr).
  - pose proof (habit_lines_log arr h Hc) as Hall. split.
    + intros Hnil r Hr (Hid & v & Hv). rewrite Hnil in Hall.
      apply Forall2_nil_inv_l in Hall.
      assert (r ∈ filter (λ r, r_id r = h_id h ∧ val_is_str r = true) arr) as Hin.
      { apply list_elem_of_filter. unfold val_is_str. by rewrite Hv. }
      rewrite Hall in Hin. by apply elem_of_nil in Hin.
    + intros Hno.
      assert (filter (λ r, r_id r = h_id h ∧ val_is_str r = true) arr = []) as Hnil.
      { apply elem_of_nil_inv. intros r [[Hid Hs] Hr]%list_elem_of_filter.
        apply (Hno r Hr). split; [done|].
        unfold val_is_str in Hs. destruct (r_val r); [done|eauto]. }
      rewrite Hnil in Hall. by apply Forall2_nil_inv_r in Hall.
Qed.

Lemma habit_lines_id (arr : list Entry) (h : Habit) (l : Line) :
  l ∈ habit_lines arr h → line_id l = Some (h_id h).
Proof.
  unfold habit_lines. destruct (is_check h).
  - destruct (existsb _ arr); [|by intros ?%elem_of_nil].
    by intros ->%list_elem_of_singleton.
  - intros (r & _ & Hl)%list_elem_of_omap. unfold log_line in Hl.
    destruct (r_val r); by simplify_eq.
Qed.

Lemma elem_of_action_show_report (s : HabitTUI) (l : Line) :
  l ∈ action_show_report s ↔
  l = Header (day_key s) ∨
  ∃ h, h ∈ habits_json s ∧ h_active h = true ∧
       l ∈ habit_lines (day_entries (entries_json s) (day_key s)) h.
Proof.
  rewrite action_show_report_build_report. unfold build_report.
  rewrite elem_of_cons, list_elem_of_In, in_flat_map.
  setoid_rewrite <-list_elem_of_In.
  setoid_rewrite list_elem_of_filter.
  setoid_rewrite elem_of_sorted_by_id.
  setoid_rewrite Is_true_true. split.
  - intros [->|(h & [Ha Hh] & Hl)]; [by left|right; by exists h].
  - intros [->|(h & Hh & Ha & Hl)]; [by left|right; by exists h].
Qed.

(** C7: the report is its header followed, for the active habits taken in
    ascending id order, by the lines of each habit: for a check-type
    habit one line iff a record of the day with its id has [val] boolean
    true; for any other habit one line per string-valued record of the
    day with its id, in the stored order; without a qualifying record
    the report is the header alone. *)
Theorem build_report_lines (s : HabitTUI) :
  let dkey := day_key s in
  let arr := day_entries (entries_json s) dkey in
  let visit := filter (λ h, h_active h) (sorted_by_id (habits_json s)) in
  (visit ≡ₚ filter (λ h, h_active h) (habits_json s) ∧
   StronglySorted id_le visit) ∧
  action_show_report s = Header dkey :: flat_map (habit_lines arr) visit ∧
  (∀ h, is_check h = true →
     (habit_lines arr h = [CheckLine (h_id h) (h_title h)] ↔
        ∃ r, r ∈ arr ∧ r_id r = h_id h ∧ r_val r = VTrue) ∧
     (habit_lines arr h = [] ↔
        ¬ ∃ r, r ∈ arr ∧ r_id r = h_id h ∧ r_val r = VTrue)) ∧
  (∀ h, is_check h = false →
     Forall2 (λ l r, ∃ v, r_val r = VStr v ∧
                          l = LogLine (h_id h) (h_title h) v (r_ts r))
             (habit_lines arr h)
             (filter (λ r, r_id r = h_id h ∧ val_is_str r = true) arr)) ∧
  ((∀ h r, h ∈ habits_json s → h_active h = true → r ∈ arr → ¬ qualifies h r) →
     action_show_report s = [Header dkey]).
Proof.
  intros dkey arr visit. split; [split|].
  - unfold visit. by rewrite sorted_by_id_perm.
  - apply StronglySorted_filter, sorted_by_id_sorted.
  - split; [apply action_show_report_build_report|].
    split; [apply habit_lines_check|]. split; [apply habit_lines_log|].
    intros Hno. rewrite action_show_report_build_report. unfold build_report.
    f_equal. fold dkey arr visit.
    assert (∀ h, h ∈ visit → habit_lines arr h = []) as Hnil.
    { intros h [Ha Hh]%list_elem_of_filter.
      rewrite elem_of_sorted_by_id in Hh. apply Is_true_true in Ha.
      apply habit_lines_nil. intros r Hr. by apply Hno. }
    clear Hno. induction visit as [|h l IH]; [done|].
    simpl. rewrite Hnil by left. rewrite IH; [done|].
    intros h' Hh'. apply Hnil. by right.
Qed.

End Report.

(** ** The done mark of the table *)

Section DoneMark.

Lemma row_of_mark (done : gset Z) (h : Habit) :
  row_mark (row_of done h) = CHECKED ↔ h_id h ∈ done.
Proof.
  unfold row_of. simpl. case_bool_decide; [done|].
  split; [|done]. intros Heq. by destruct CHECKED_UNCHECKED.
Qed.

(** C10: a row of the table is marked done iff some record of the day
    with the id of the row has [val] boolean true or a string; the type
    of the habit plays no part.  So a visible check-type habit whose
    records of the day are all strings, with at least one of them, is
    marked done, while its own lines in the report are none (and no line
    of the report carries its id when no other habit shares the id). *)
Theorem done_mark_ignores_type (s : HabitTUI) :
  let arr := day_entries (entries_json s) (day_key s) in
  (∀ row, row ∈ refresh_table s →
     (row_mark row = CHECKED ↔
        ∃ r, r ∈ arr ∧ r_id r = row_key row ∧
             (r_val r = VTrue ∨ ∃ v, r_val r = VStr v)) ∧
     (row_mark row = UNCHECKED ↔
        ¬ ∃ r, r ∈ arr ∧ r_id r = row_key row ∧
               (r_val r = VTrue ∨ ∃ v, r_val r = VStr v))) ∧
  (∀ h, h ∈ habits_json s → visible (filter_tag s) h = true →
     is_check h = true →
     (∃ r, r ∈ arr ∧ r_id r = h_id h) →
     (∀ r, r ∈ arr → r_id r = h_id h → ∃ v, r_val r = VStr v) →
     mkRow CHECKED (pretty (h_id h)) (h_type h) (h_title h)
           (PyStr.join "," (h_tags h)) (h_id h) ∈ refresh_table s ∧
     habit_lines arr h = [] ∧
     ((∀ h', h' ∈ habits_json s → h_id h' = h_id h → h' = h) →
      ∀ l, l ∈ action_show_report s → line_id l ≠ Some (h_id h))).
Proof.
  intros arr. split.
  - intros row (h & Hh & Hv & ->)%elem_of_refresh_table.
    change (row_key (row_of (today_done_ids s) h)) with (h_id h).
    subst arr. rewrite <-(elem_of_today_done_ids s (h_id h)).
    split; [apply row_of_mark|].
    unfold row_of. simpl. case_bool_decide; split; done.
  - subst arr. set (arr := day_entries (entries_json s) (day_key s)).
    intros h Hh Hv Hc (r0 & Hr0 & Hid0) Hstr.
    assert (habit_lines arr h = []) as Hnil.
    { apply (habit_lines_check arr h Hc).
      intros (r & Hr & Hid & Htrue).
      destruct (Hstr r Hr Hid) as [v Hv']. congruence. }
    split; [|split; [done|]].
    + apply elem_of_refresh_table. exists h. split; [done|]. split; [done|].
      unfold row_of. rewrite bool_decide_eq_true_2; [done|].
      apply elem_of_today_done_ids. exists r0. split; [done|]. split; [done|].
      right. by apply Hstr.
    + intros Huniq l Hl Hline.
      apply elem_of_action_show_report in Hl as [->|(h' & Hh' & _ & Hl)]; [done|].
      apply habit_lines_id in Hl as Hid. rewrite Hid in Hline.
      injection Hline as Hline.
      rewrite (Huniq h' Hh' Hline) in Hl. fold arr in Hl. rewrite Hnil in Hl.
      by apply elem_of_nil in Hl.
Qed.

End DoneMark.

(** ** action_delete_habit *)

Section Delete.

Lemma foldl_delete_day_lookup (hid : Z) (l : list (string * list Entry))
    (m : gmap string (list Entry)) (d : string) :
  NoDup l.*1 →
  foldl (delete_day hid) m l !! d
  = match (list_to_map l : gmap string (list Entry)) !! d with
    | Some arr => Some (filter (λ r, r_id r ≠ hid) arr)
    | None => m !! d
    end.
Proof.
  revert m. induction l as [|[k arr] l IH]; intros m Hnd; simpl; [done|].
  apply NoDup_cons in Hnd as [Hk Hnd].
  rewrite (IH _ Hnd). unfold delete_day at 1. simpl.
  destruct (decide (k = d)) as [->|Hne].
  - by rewrite (not_elem_of_list_to_map_1 l d Hk), !lookup_insert_eq.
  - by rewrite !(lookup_insert_ne _ k d).
Qed.

(** The loop over the day keys filters the list of every day. *)
Lemma action_delete_habit_days (hid : Z) (s : HabitTUI) (d : string) :
  get_days (entries_json (action_delete_habit hid s)) !! d
  = filter (λ r, r_id r ≠ hid) <$> get_days (entries_json s) !! d.
Proof.
  unfold action_delete_habit. simpl.
  destruct (entries_json s) as [days|]; simpl; [|by rewrite lookup_empty].
  rewrite foldl_delete_day_lookup by apply NoDup_fst_map_to_list.
  rewrite list_to_map_to_list. by destruct (days !! d).
Qed.

Lemma action_delete_habit_day_entries (hid : Z) (s : HabitTUI) (d : string) :
  day_entries (entries_json (action_delete_habit hid s)) d
  = filter (λ r, r_id r ≠ hid) (day_entries (entries_json s) d).
Proof.
  unfold day_entries. rewrite action_delete_habit_days.
  by destruct (get_days (entries_json s) !! d).
Qed.

Lemma filter_absent_id (hid : Z) (l : list Habit) :
  hid ∉ map h_id l → filter (λ x, h_id x ≠ hid) l = l.
Proof.
  induction l as [|h l IH]; intros Hnot; [done|].
  rewrite filter_cons. rewrite fmap_cons, not_elem_of_cons in Hnot.
  destruct Hnot as [Hne Hnot]. rewrite decide_True by done.
  by rewrite (IH Hnot).
Qed.

(** C2: [delete_habit(hid)] keeps exactly the habits whose id is not
    [hid] and, under every day key, exactly the records whose id is not
    [hid], the day keys staying the same; whatever the day and the tag
    filter afterwards, no row of the table and no line of the report is
    about [hid]; and the habit list is unchanged when no habit has the
    id. *)
Theorem delete_habit_cascade (hid : Z) (s : HabitTUI) :
  let s' := action_delete_habit hid s in
  (∀ h, h ∈ habits_json s' ↔ h ∈ habits_json s ∧ h_id h ≠ hid) ∧
  habits_json s' `sublist_of` habits_json s ∧
  (∀ d, is_Some (get_days (entries_json s') !! d)
        ↔ is_Some (get_days (entries_json s) !! d)) ∧
  (∀ d r, r ∈ day_entries (entries_json s') d
          ↔ r ∈ day_entries (entries_json s) d ∧ r_id r ≠ hid) ∧
  (∀ d ft,
     let later := mkTUI (habits_json s') (entries_json s') d ft in
     (∀ row, row ∈ refresh_table later →
             row_key row ≠ hid ∧ row_id row ≠ pretty hid) ∧
     (∀ l, l ∈ action_show_report later → line_id l ≠ Some hid)) ∧
  (hid ∉ map h_id (habits_json s) → habits_json s' = habits_json s).
Proof.
  intros s'.
  assert (∀ h, h ∈ habits_json s' ↔ h ∈ habits_json s ∧ h_id h ≠ hid) as Hhab.
  { intros h. unfold s', action_delete_habit. simpl.
    rewrite list_elem_of_filter. tauto. }
  split; [exact Hhab|]. split; [apply sublist_filter; apply _|].
  split; [|split; [|split]].
  - intros d. unfold s'. rewrite action_delete_habit_days.
    by rewrite fmap_is_Some.
  - intros d r. unfold s'. rewrite action_delete_habit_day_entries.
    rewrite list_elem_of_filter. tauto.
  - intros d ft later. split.
    + intros row (h & Hh & _ & ->)%elem_of_refresh_table.
      apply Hhab in Hh as [_ Hne]. unfold row_of. simpl.
      split; [done|]. intros Heq. by apply (inj pretty) in Heq.
    + intros l [->|(h & Hh & _ & Hl)]%elem_of_action_show_report; [done|].
      apply Hhab in Hh as [_ Hne]. apply habit_lines_id in Hl.
      rewrite Hl. congruence.
  - apply filter_absent_id.
Qed.

End Delete.

(** ** Worked examples of the table and the report *)

Section Examples.

(** The string "true" is a log value: the check habit 1 gets no line,
    yet its row is marked done; the log habit 2 gets its two lines in
    the stored order, after the header. *)
Example string_true_report :
  action_show_report string_true
  = [Header "2024-01-01";
     LogLine 2 "Mood" "great" "09:00:00";
     LogLine 2 "Mood" "tired" "21:00:00"] ∧
  map (λ row, (row_key row, row_mark row)) (refresh_table string_true)
  = [(1, CHECKED); (2, CHECKED)].
Proof. split; vm_compute; reflexivity. Qed.

(** The scenario of the specification: one toggle creates the record,
    the next one removes it and leaves the list of the day empty. *)
Example toggle_scenario :
  let s1 := (action_toggle_check "10:00:00" 1 one_habit).1 in
  let s2 := (action_toggle_check "10:00:01" 1 s1).1 in
  day_entries (entries_json s1) "2024-01-01" = [mkEntry 1 "10:00:00" VTrue] ∧
  day_entries (entries_json s2) "2024-01-01" = [] ∧
  get_days (entries_json s2) !! "2024-01-01" = Some [].
Proof. repeat split; vm_compute; reflexivity. Qed.

(** The second scenario: two log entries are kept in insertion order and
    the report lists both with their time stamps. *)
Example log_scenario :
  let mood := mkHabit 2 "Mood" [] "log" true in
  let s0 := mkTUI [mood] None "2024-01-01" None in
  let s1 := LogInputScreen_on_button_pressed "09:00:00" mood BtnSave "great" s0 in
  let s2 := LogInputScreen_on_button_pressed "21:00:00" mood BtnSave "tired" s1 in
  day_entries (entries_json s2) "2024-01-01"
  = [mkEntry 2 "09:00:00" (VStr "great"); mkEntry 2 "21:00:00" (VStr "tired")] ∧
  action_show_report s2
  = [Header "2024-01-01";
     LogLine 2 "Mood" "great" "09:00:00";
     LogLine 2 "Mood" "tired" "21:00:00"].
Proof. split; vm_compute; reflexivity. Qed.

End Examples.

(** ** LogInputScreen *)

Section LogInput.

Lemma truthy_nonempty (t : string) : PyStr.truthy t = true ↔ t ≠ "".
Proof. by destruct t. Qed.

Lemma truthy_empty (t : string) : PyStr.truthy t = false ↔ t = "".
Proof. by destruct t. Qed.

(** C6: the save button of the log dialog, for a text that is not empty
    once trimmed, appends the record [{id, ts=now, val=trimmed text}] at
    the end of the list of the current day: the list grows by one, every
    record stored before is still there, in place, and the other days
    are as they were; for a text that trims to the empty string the
    state is unchanged. *)
Theorem append_log_appends (now : string) (habit : Habit) (text : string)
    (main : HabitTUI) :
  let main' := LogInputScreen_on_button_pressed now habit BtnSave text main in
  let dkey := day_key main in
  (PyStr.strip text ≠ "" →
     day_entries (entries_json main') dkey
     = day_entries (entries_json main) dkey
       ++ [mkEntry (h_id habit) now (VStr (PyStr.strip text))] ∧
     length (day_entries (entries_json main') dkey)
     = S (length (day_entries (entries_json main) dkey)) ∧
     (∀ i r, day_entries (entries_json main) dkey !! i = Some r →
             day_entries (entries_json main') dkey !! i = Some r) ∧
     (∀ d, d ≠ dkey →
           day_entries (entries_json main') d = day_entries (entries_json main) d) ∧
     habits_json main' = habits_json main) ∧
  (PyStr.strip text = "" → main' = main).
Proof.
  intros main' dkey. unfold main', LogInputScreen_on_button_pressed. split.
  - intros Hne. apply truthy_nonempty in Hne. rewrite Hne.
    unfold with_entries. simpl entries_json. simpl habits_json.
    rewrite setdefault_day_lookup. fold dkey.
    rewrite day_entries_insert.
    split; [done|]. split; [rewrite length_app; simpl; lia|].
    split; [intros i r Hi; by apply lookup_app_l_Some|]. split; [|done].
    intros d Hd. rewrite day_entries_insert_ne by done.
    unfold day_entries at 1. simpl. apply setdefault_day_lookup.
  - intros Hempty. apply truthy_empty in Hempty. by rewrite Hempty.
Qed.

(** The cancel button changes nothing. *)
Lemma log_cancel (now : string) (habit : Habit) (text : string) (main : HabitTUI) :
  LogInputScreen_on_button_pressed now habit BtnCancel text main = main.
Proof. done. Qed.

End LogInput.

(** ** EditScreen *)

Section Edit.

Lemma or_else_check (t : string) :
  (t = "" → PyStr.or_else t "check" = "check") ∧
  (t ≠ "" → PyStr.or_else t "check" = t).
Proof. by destruct t. Qed.

(** Saving a new habit appends one dict with the next id and
    [active = True]. *)
Lemma add_habit_appends (inp : EditInput) (s : HabitTUI) :
  add_habit inp s
  = with_habits s
      (habits_json s
       ++ [mkHabit (next_id (habits_json s)) (PyStr.strip (title_input inp))
             (parse_tags (tags_input inp))
             (PyStr.or_else (PyStr.strip (type_input inp)) "check") true]).
Proof. done. Qed.

(** Saving an edit updates the dict at the position of the first habit
    with the id. *)
Lemma edit_habit_alters (hid : Z) (inp : EditInput) (s : HabitTUI)
    (i : nat) (h : Habit) :
  list_find (λ x, h_id x = hid) (habits_json s) = Some (i, h) →
  edit_habit hid inp s
  = with_habits s
      (alter (habit_update (PyStr.strip (title_input inp))
                (parse_tags (tags_input inp))
                (PyStr.or_else (PyStr.strip (type_input inp)) "check"))
             i (habits_json s)).
Proof. intros Hfind. unfold edit_habit, action_edit_habit. by rewrite Hfind. Qed.


Lemma edit_habit_found (hid : Z) (s : HabitTUI) (h : Habit) :
  h ∈ habits_json s → h_id h = hid →
  ∃ i h', list_find (λ x, h_id x = hid) (habits_json s) = Some (i, h').
Proof.
  intros Hin Hid.
  destruct (list_find_elem_of (λ x, h_id x = hid) (habits_json s) h Hin Hid)
    as [[i h'] Hfind].
  eauto.
Qed.

(** C9: editing the habit found for the id under the cursor replaces its
    title, tags and type by the trimmed title, the parsed tags and the
    type (["check"] when left empty), and nothing else: its id and its
    active flag, the length of the list, every other position of the
    list, the entries document, the current day and the tag filter are
    as before. *)
Theorem edit_habit_frame (hid : Z) (inp : EditInput) (s : HabitTUI)
    (i : nat) (h : Habit) :
  list_find (λ x, h_id x = hid) (habits_json s) = Some (i, h) →
  let s' := edit_habit hid inp s in
  habits_json s' !! i
  = Some (mkHabit (h_id h) (PyStr.strip (title_input inp))
            (parse_tags (tags_input inp))
            (PyStr.or_else (PyStr.strip (type_input inp)) "check")
            (h_active h)) ∧
  (∀ j, j ≠ i → habits_json s' !! j = habits_json s !! j) ∧
  length (habits_json s') = length (habits_json s) ∧
  entries_json s' = entries_json s ∧
  current_date s' = current_date s ∧
  filter_tag s' = filter_tag s.
Proof.
  intros Hfind s'. unfold s'.
  rewrite (edit_habit_alters hid inp s i h Hfind). simpl.
  apply list_find_Some in Hfind as (Hi & _ & _).
  split; [by rewrite list_lookup_alter_eq, Hi|].
  split; [intros j Hj; by rewrite list_lookup_alter_ne|].
  split; [apply length_alter|done].
Qed.

Lemma edit_habit_frame_witness :
  let inp := mkEditInput " Sleep by 10 " "수면·환경, ,몸·에너지" "log" in
  let s' := edit_habit 1 inp string_true in
  habits_json s' !! 1%nat
  = Some (mkHabit 1 "Sleep by 10" ["수면·환경"; "몸·에너지"] "log" true) ∧
  (∀ j, j ≠ 1%nat → habits_json s' !! j = habits_json string_true !! j) ∧
  length (habits_json s') = length (habits_json string_true) ∧
  entries_json s' = entries_json string_true ∧
  current_date s' = current_date string_true ∧
  filter_tag s' = filter_tag string_true.
Proof.
  apply (edit_habit_frame 1 (mkEditInput " Sleep by 10 " "수면·환경, ,몸·에너지" "log")
           string_true 1%nat (mkHabit 1 "Sleep by 11" [] "check" true)).
  reflexivity.
Defined.

(** C8 (as amended): the habit stored by the add operation has type
    ["check"] when the type input is empty once trimmed, and otherwise
    the trimmed input itself, whether or not it is one of ["check"] and
    ["log"]. *)
Theorem add_habit_type (inp : EditInput) (s : HabitTUI) :
  ∃ h, habits_json (add_habit inp s) = habits_json s ++ [h] ∧
       (PyStr.strip (type_input inp) = "" → h_type h = "check") ∧
       (PyStr.strip (type_input inp) ≠ "" →
          h_type h = PyStr.strip (type_input inp)).
Proof.
  rewrite add_habit_appends. eexists. split; [done|]. simpl.
  apply or_else_check.
Qed.

(** C8 (as stated) fails for the type input "weekly": it is neither empty
    nor a recognized value, and the stored habit has type "weekly". *)
Lemma add_habit_unrecognized_type :
  habits_json (add_habit (mkEditInput "Read" "" "weekly") empty_store)
  = [mkHabit 1 "Read" [] "weekly" true] ∧
  ¬ ∃ h, h ∈ habits_json (add_habit (mkEditInput "Read" "" "weekly") empty_store)
         ∧ h_type h = "check".
Proof.
  split; [reflexivity|].
  intros (h & Hh & Ht). vm_compute in Hh.
  apply list_elem_of_singleton in Hh as ->. done.
Qed.

(** C4 (as amended): a title that is empty once trimmed is stored like
    any other: the add operation appends a habit with the empty title
    (the list grows by one) and the edit operation sets the title of the
    targeted habit to the empty string. *)
Theorem blank_title_is_stored (inp : EditInput) (s : HabitTUI) :
  PyStr.strip (title_input inp) = "" →
  (∃ h, habits_json (add_habit inp s) = habits_json s ++ [h] ∧
        h_title h = "" ∧ h_id h = next_id (habits_json s)) ∧
  (∀ hid i h, list_find (λ x, h_id x = hid) (habits_json s) = Some (i, h) →
     ∃ h', habits_json (edit_habit hid inp s) !! i = Some h' ∧
           h_title h' = "" ∧ h_id h' = h_id h).
Proof.
  intros Hblank. split.
  - rewrite add_habit_appends. eexists. split; [done|]. by simpl.
  - intros hid i h Hfind.
    rewrite (edit_habit_alters hid inp s i h Hfind). simpl.
    apply list_find_Some in Hfind as (Hi & _ & _).
    rewrite list_lookup_alter_eq, Hi. simpl.
    eexists. split; [done|]. by simpl.
Qed.

Lemma blank_title_is_stored_witness :
  (∃ h, habits_json (add_habit (mkEditInput "   " "" "") one_habit)
        = habits_json one_habit ++ [h] ∧
        h_title h = "" ∧ h_id h = next_id (habits_json one_habit)) ∧
  (∀ hid i h, list_find (λ x, h_id x = hid) (habits_json one_habit) = Some (i, h) →
     ∃ h', habits_json (edit_habit hid (mkEditInput "   " "" "") one_habit) !! i
           = Some h' ∧
           h_title h' = "" ∧ h_id h' = h_id h).
Proof.
  apply (blank_title_is_stored (mkEditInput "   " "" "") one_habit).
  reflexivity.
Defined.

(** C4 (as stated) fails for a title of three spaces: the add operation
    creates habit 1 with the empty title, and the edit operation blanks
    the title of the habit it is applied to. *)
Lemma add_habit_blank_title_creates :
  habits_json (add_habit (mkEditInput "   " "" "") empty_store)
  = [mkHabit 1 "" [] "check" true] ∧
  habits_json (add_habit (mkEditInput "   " "" "") empty_store)
  ≠ habits_json empty_store ∧
  habits_json (edit_habit 1 (mkEditInput "   " "" "check") one_habit)
  = [mkHabit 1 "" [] "check" true] ∧
  habits_json (edit_habit 1 (mkEditInput "   " "" "check") one_habit)
  ≠ habits_json one_habit.
Proof. repeat split; try reflexivity; vm_compute; discriminate. Qed.

(** The cancel button changes nothing. *)
Lemma edit_cancel (scr : EditScreen) (inp : EditInput) (main : HabitTUI) :
  EditScreen_on_button_pressed scr BtnCancel inp main = main.
Proof. done. Qed.

End Edit.

(** * Further properties *)

(** ** The space key *)

Section Space.

Lemma find_habit_Some (hid : Z) (habits : list Habit) (h : Habit) :
  find_habit hid habits = Some h → h ∈ habits ∧ h_id h = hid.
Proof.
  intros [Hin Hid]%find_some.
  apply list_elem_of_In in Hin. by apply bool_decide_eq_true in Hid.
Qed.





(** [arr.remove(ex)] for the first record [ex] that satisfies a test takes
    out that very record. *)
Lemma py_remove_first (hid : Z) (arr : list Entry) (ex : Entry) :
  List.find (checked_by hid) arr = Some ex →
  ∃ l1 l2, arr = l1 ++ ex :: l2 ∧ py_remove ex arr = l1 ++ l2 ∧
           (∀ r, r ∈ l1 → checked_by hid r = false) ∧
           checked_by hid ex = true.
Proof.
  induction arr as [|y arr IH]; simpl; [done|].
  destruct (checked_by hid y) eqn:Hy.
  - intros [= ->]. exists [], arr. rewrite decide_True by done.
    split; [done|]. split; [done|]. split; [|done].
    by intros r ?%elem_of_nil.
  - intros Hfind. destruct (IH Hfind) as (l1 & l2 & -> & Hrem & Hl1 & Hex).
    exists (y :: l1), l2. rewrite decide_False by congruence.
    rewrite Hrem. split; [done|]. split; [done|]. split; [|done].
    intros r [->|Hr]%elem_of_cons; [done|by apply Hl1].
Qed.

Lemma checked_by_true (hid : Z) (r : Entry) :
  checked_by hid r = true ↔ r_id r = hid ∧ r_val r = VTrue.
Proof.
  unfold checked_by, val_is_true.
  rewrite andb_true_iff, bool_decide_eq_true.
  destruct (r_val r); split; intros [? ?]; done.
Qed.

(** X2: Space on a check-type habit touches one record of the current day and
    nothing else: when no record of the day has the id and [val] true, the
    record [{id, ts=now, val=true}] is appended; otherwise the earliest
    such record is taken out and all other records keep their order.  The
    habits and the other days are as before. *)
Theorem toggle_check_one_record (now : string) (hid : Z) (s : HabitTUI) (h : Habit) :
  find_habit hid (habits_json s) = Some h → is_check h = true →
  let s' := (action_toggle_check now hid s).1 in
  let arr := day_entries (entries_json s) (day_key s) in
  let arr' := day_entries (entries_json s') (day_key s) in
  (completed (entries_json s) (day_key s) hid = false →
     arr' = arr ++ [mkEntry hid now VTrue]) ∧
  (completed (entries_json s) (day_key s) hid = true →
     ∃ l1 ex l2, arr = l1 ++ ex :: l2 ∧ arr' = l1 ++ l2 ∧
                 r_id ex = hid ∧ r_val ex = VTrue ∧
                 ∀ r, r ∈ l1 → ¬ (r_id r = hid ∧ r_val r = VTrue)) ∧
  (∀ d, d ≠ day_key s →
        day_entries (entries_json s') d = day_entries (entries_json s) d) ∧
  habits_json s' = habits_json s ∧
  (action_toggle_check now hid s).2 = None.
Proof.
  intros Hfind Hcheck s' arr arr'. unfold arr', s'.
  rewrite (action_toggle_check_check now hid s h Hfind Hcheck).
  cbn [fst snd with_entries entries_json habits_json].
  rewrite day_entries_insert. fold arr. unfold completed. fold arr.
  unfold toggle_arr.
  split; [|split; [|split; [|done]]].
  - intros Hnone.
    destruct (List.find (checked_by hid) arr) as [ex|] eqn:Hf; [|done].
    apply find_some in Hf as [Hin Hex].
    assert (existsb (checked_by hid) arr = true) as Htrue
      by (apply existsb_exists; eauto).
    congruence.
  - intros Hsome.
    destruct (List.find (checked_by hid) arr) as [ex|] eqn:Hf.
    + destruct (py_remove_first hid arr ex Hf) as (l1 & l2 & Harr & Hrem & Hl1 & Hex).
      apply checked_by_true in Hex as [Hid Hval].
      exists l1, ex, l2. repeat (split; [done|]).
      intros r Hr Hc%checked_by_true. specialize (Hl1 r Hr). congruence.
    + apply existsb_exists in Hsome as (r & Hr & Hc).
      pose proof (find_none _ _ Hf r Hr). congruence.
  - intros d Hd. rewrite day_entries_insert_ne by done.
    unfold day_entries at 1. simpl. apply setdefault_day_lookup.
Qed.

Lemma toggle_check_one_record_witness :
  let s' := (action_toggle_check "10:00:00" 1 two_checks).1 in
  let arr := day_entries (entries_json two_checks) (day_key two_checks) in
  let arr' := day_entries (entries_json s') (day_key two_checks) in
  (completed (entries_json two_checks) (day_key two_checks) 1 = false →
     arr' = arr ++ [mkEntry 1 "10:00:00" VTrue]) ∧
  (completed (entries_json two_checks) (day_key two_checks) 1 = true →
     ∃ l1 ex l2, arr = l1 ++ ex :: l2 ∧ arr' = l1 ++ l2 ∧
                 r_id ex = 1 ∧ r_val ex = VTrue ∧
                 ∀ r, r ∈ l1 → ¬ (r_id r = 1 ∧ r_val r = VTrue)) ∧
  (∀ d, d ≠ day_key two_checks →
        day_entries (entries_json s') d = day_entries (entries_json two_checks) d) ∧
  habits_json s' = habits_json two_checks ∧
  (action_toggle_check "10:00:00" 1 two_checks).2 = None.
Proof.
  apply (toggle_check_one_record "10:00:00" 1 two_checks
           (mkHabit 1 "Sleep by 11" [] "check" true)); reflexivity.
Defined.

End Space.

(** ** What the table and the report show after a key *)

Section Shown.

Lemma completed_exists (e : option (gmap string (list Entry))) (dkey : string)
    (hid : Z) :
  completed e dkey hid = true ↔
  ∃ r, r ∈ day_entries e dkey ∧ r_id r = hid ∧ r_val r = VTrue.
Proof. apply checked_by_exists. Qed.

Lemma check_line_in_habit_lines (arr : list Entry) (h : Habit) (i : Z) (title : string) :
  CheckLine i title ∈ habit_lines arr h →
  is_check h = true ∧ h_id h = i ∧ existsb (checked_by i) arr = true.
Proof.
  unfold habit_lines. destruct (is_check h).
  - destruct (existsb (checked_by (h_id h)) arr) eqn:Hex;
      [|by intros ?%elem_of_nil].
    intros Heq%list_elem_of_singleton. injection Heq as Hi _.
    subst i. done.
  - intros (r & _ & Hl)%list_elem_of_omap. unfold log_line in Hl.
    by destruct (r_val r).
Qed.

(** X3: After space on an active check-type habit that was not completed, the
    report of the day has its check line and the habit counts as done; and
    after space on one that had a single boolean-true record, the report
    has no check line with its id. *)
Theorem toggle_shows_in_report (now : string) (hid : Z) (s : HabitTUI) (h : Habit) :
  find_habit hid (habits_json s) = Some h → is_check h = true →
  h_active h = true →
  let s' := (action_toggle_check now hid s).1 in
  (completed (entries_json s) (day_key s) hid = false →
     CheckLine hid (h_title h) ∈ action_show_report s' ∧
     hid ∈ today_done_ids s') ∧
  (true_count (entries_json s) (day_key s) hid = 1%nat →
     ∀ title, CheckLine hid title ∉ action_show_report s').
Proof.
  intros Hfind Hcheck Hactive s'.
  destruct (toggle_true_count now hid s h Hfind Hcheck) as (Hh & Hd & Hc).
  fold s' in Hh, Hd, Hc.
  apply find_habit_Some in Hfind as [Hin Hid].
  split.
  - intros Hnot. rewrite completed_count in Hnot.
    assert (completed (entries_json s') (day_key s') hid = true) as Hdone.
    { rewrite Hd, completed_count, Hc.
      by destruct (true_count (entries_json s) (day_key s) hid). }
    split.
    + apply elem_of_action_show_report. right. exists h.
      rewrite Hh. split; [done|]. split; [done|].
      unfold habit_lines. rewrite Hcheck, Hid.
      unfold completed in Hdone. rewrite Hdone. by apply list_elem_of_singleton.
    + apply elem_of_today_done_ids.
      apply completed_exists in Hdone as (r & Hr & Hrid & Hval). eauto.
  - intros Hone title Hline.
    apply elem_of_action_show_report in Hline as [|(h' & _ & _ & Hl)]; [done|].
    apply check_line_in_habit_lines in Hl as (_ & _ & Hex).
    assert (completed (entries_json s') (day_key s') hid = false) as Hnot
      by (by rewrite Hd, completed_count, Hc, Hone).
    unfold completed in Hnot. congruence.
Qed.

Lemma toggle_shows_in_report_witness :
  let s' := (action_toggle_check "10:00:00" 1 one_habit).1 in
  (completed (entries_json one_habit) (day_key one_habit) 1 = false →
     CheckLine 1 "Sleep by 11" ∈ action_show_report s' ∧
     1 ∈ today_done_ids s') ∧
  (true_count (entries_json one_habit) (day_key one_habit) 1 = 1%nat →
     ∀ title, CheckLine 1 title ∉ action_show_report s').
Proof.
  apply (toggle_shows_in_report "10:00:00" 1 one_habit
           (mkHabit 1 "Sleep by 11" [] "check" true)); reflexivity.
Defined.

(** The save button of the log dialog with a text that [strip] does not
    empty. *)
Lemma log_save_entries (now : string) (habit : Habit) (text : string) (s : HabitTUI) :
  PyStr.strip text ≠ "" →
  LogInputScreen_on_button_pressed now habit BtnSave text s
  = with_entries s
      (Some (<[day_key s :=
                 day_entries (entries_json s) (day_key s)
                 ++ [mkEntry (h_id habit) now (VStr (PyStr.strip text))]]>
               (setdefault_day (entries_json s) (day_key s)))).
Proof.
  intros Hne%truthy_nonempty. unfold LogInputScreen_on_button_pressed.
  by rewrite Hne, setdefault_day_lookup.
Qed.

Lemma log_save_day_entries (now : string) (habit : Habit) (text : string)
    (s : HabitTUI) (d : string) :
  PyStr.strip text ≠ "" →
  day_entries (entries_json (LogInputScreen_on_button_pressed now habit BtnSave text s)) d
  = day_entries (entries_json s) d
    ++ (if decide (d = day_key s)
        then [mkEntry (h_id habit) now (VStr (PyStr.strip text))] else []).
Proof.
  intros Hne. rewrite (log_save_entries now habit text s Hne).
  cbn [with_entries entries_json]. case_decide as Hd.
  - subst d. by rewrite day_entries_insert.
  - rewrite day_entries_insert_ne, app_nil_r by done.
    unfold day_entries at 1. simpl. apply setdefault_day_lookup.
Qed.

Lemma checked_by_string (i j : Z) (ts v : string) :
  checked_by i (mkEntry j ts (VStr v)) = false.
Proof. unfold checked_by. apply andb_false_r. Qed.



End Shown.

(** ** Deleting, adding and editing, composed *)

Section Compose.

Lemma filter_twice {A} (P : A → Prop) `{!∀ x, Decision (P x)} (l : list A) :
  filter P (filter P l) = filter P l.
Proof. by apply list_filter_filter_l. Qed.

Lemma filter_swap {A} (P Q : A → Prop) `{!∀ x, Decision (P x), !∀ x, Decision (Q x)}
    (l : list A) :
  filter P (filter Q l) = filter Q (filter P l).
Proof. rewrite !list_filter_filter. apply list_filter_iff. tauto. Qed.

(** The delete key, as one equation on the state. *)
Lemma action_delete_habit_state (hid : Z) (s : HabitTUI) :
  action_delete_habit hid s
  = mkTUI (filter (λ x, h_id x ≠ hid) (habits_json s))
          ((λ days : gmap string (list Entry),
              filter (λ r, r_id r ≠ hid) <$> days) <$> entries_json s)
          (current_date s) (filter_tag s).
Proof.
  unfold action_delete_habit. f_equal.
  destruct (entries_json s) as [days|]; [|done]. simpl. f_equal.
  apply map_eq. intros d.
  rewrite foldl_delete_day_lookup by apply NoDup_fst_map_to_list.
  rewrite list_to_map_to_list, lookup_fmap. by destruct (days !! d).
Qed.

(** X6: Deleting the same id twice is deleting it once, and two deletions can
    be done in either order. *)
Theorem delete_habit_idempotent_commutes (a b : Z) (s : HabitTUI) :
  action_delete_habit a (action_delete_habit a s) = action_delete_habit a s ∧
  action_delete_habit a (action_delete_habit b s)
  = action_delete_habit b (action_delete_habit a s).
Proof.
  rewrite !action_delete_habit_state. cbn [habits_json entries_json current_date filter_tag].
  split.
  - f_equal; [apply filter_twice|].
    destruct (entries_json s) as [days|]; [|done]. simpl. f_equal.
    rewrite <-map_fmap_compose. apply map_fmap_ext.
    intros d arr _. simpl. apply filter_twice.
  - f_equal; [apply filter_swap|].
    destruct (entries_json s) as [days|]; [|done]. simpl. f_equal.
    rewrite <-!map_fmap_compose. apply map_fmap_ext.
    intros d arr _. simpl. apply filter_swap.
Qed.




End Compose.

(** ** Invariants kept by the keys *)

Section Invariants.

Lemma toggle_habits (now : string) (hid : Z) (s : HabitTUI) :
  habits_json (action_toggle_check now hid s).1 = habits_json s.
Proof.
  unfold action_toggle_check.
  destruct (find_habit hid (habits_json s)) as [h|]; [|done].
  by destruct (is_check h).
Qed.

Lemma toggle_day_key (now : string) (hid : Z) (s : HabitTUI) :
  day_key (action_toggle_check now hid s).1 = day_key s.
Proof.
  unfold action_toggle_check.
  destruct (find_habit hid (habits_json s)) as [h|]; [|done].
  by destruct (is_check h).
Qed.

Lemma toggle_arr_other_count (now : string) (hid i : Z) (arr : list Entry) :
  i ≠ hid →
  length (List.filter (checked_by i) (toggle_arr now hid arr))
  = length (List.filter (checked_by i) arr).
Proof.
  intros Hne. unfold toggle_arr.
  destruct (List.find (checked_by hid) arr) as [ex|] eqn:Hfind.
  - destruct (py_remove_first hid arr ex Hfind) as (l1 & l2 & -> & -> & _ & Hex).
    apply checked_by_true in Hex as [Hid _].
    rewrite !List.filter_app. simpl.
    assert (checked_by i ex = false) as ->; [|done].
    unfold checked_by. rewrite bool_decide_eq_false_2; [done|congruence].
  - rewrite List.filter_app. simpl.
    assert (checked_by i (mkEntry hid now VTrue) = false) as ->.
    { unfold checked_by. simpl. rewrite bool_decide_eq_false_2; [done|congruence]. }
    by rewrite app_nil_r.
Qed.

Lemma toggle_single_checks (now : string) (hid : Z) (s : HabitTUI) :
  single_checks s → single_checks (action_toggle_check now hid s).1.
Proof.
  intros Hinv d i. unfold action_toggle_check.
  destruct (find_habit hid (habits_json s)) as [h|] eqn:Hfind; [|apply Hinv].
  destruct (is_check h) eqn:Hcheck; cbn [fst with_entries entries_json].
  - specialize (Hinv d i). unfold true_count in *.
    destruct (decide (d = day_key s)) as [->|Hd].
    + rewrite day_entries_insert, setdefault_day_lookup.
      destruct (decide (i = hid)) as [->|Hi].
      * rewrite toggle_arr_count.
        destruct (length (List.filter _ _)); lia.
      * by rewrite toggle_arr_other_count.
    + rewrite day_entries_insert_ne by done.
      unfold day_entries at 1. simpl. by rewrite setdefault_day_lookup.
  - specialize (Hinv d i). unfold true_count in *.
    unfold day_entries at 1. simpl. by rewrite setdefault_day_lookup.
Qed.

Lemma log_button_habits (now : string) (habit : Habit) (b : Button) (text : string)
    (s : HabitTUI) :
  habits_json (LogInputScreen_on_button_pressed now habit b text s) = habits_json s.
Proof.
  unfold LogInputScreen_on_button_pressed.
  destruct b; [|done]. by destruct (PyStr.truthy _).
Qed.

Lemma log_button_single_checks (now : string) (habit : Habit) (b : Button)
    (text : string) (s : HabitTUI) :
  single_checks s →
  single_checks (LogInputScreen_on_button_pressed now habit b text s).
Proof.
  intros Hinv. destruct b; [|done].
  destruct (decide (PyStr.strip text = "")) as [Hblank|Hne].
  - unfold LogInputScreen_on_button_pressed.
    apply truthy_empty in Hblank. by rewrite Hblank.
  - intros d i. specialize (Hinv d i). unfold true_count in *.
    rewrite (log_save_day_entries now habit text s d Hne), List.filter_app.
    case_decide; simpl; by rewrite ?checked_by_string, app_nil_r.
Qed.

Lemma edit_button_entries (scr : EditScreen) (b : Button) (inp : EditInput)
    (s : HabitTUI) :
  entries_json (EditScreen_on_button_pressed scr b inp s) = entries_json s.
Proof.
  unfold EditScreen_on_button_pressed.
  destruct b; [|done]. by destruct (es_habit scr).
Qed.

Lemma alter_update_ids (title : string) (tags : list string) (typ : string)
    (i : nat) (l : list Habit) :
  map h_id (alter (habit_update title tags typ) i l) = map h_id l.
Proof.
  revert i. induction l as [|h l IH]; intros [|i]; simpl; [done..|].
  f_equal. apply IH.
Qed.

Lemma edit_button_unique_ids (scr : EditScreen) (b : Button) (inp : EditInput)
    (s : HabitTUI) :
  unique_ids s → unique_ids (EditScreen_on_button_pressed scr b inp s).
Proof.
  unfold unique_ids, EditScreen_on_button_pressed. intros Hnd.
  destruct b; [|done]. destruct (es_habit scr) as [i|]; cbn [with_habits habits_json].
  - by rewrite alter_update_ids.
  - rewrite map_app. apply NoDup_app. split; [done|]. split.
    + intros x (h & -> & Hin)%list_elem_of_fmap Hx.
      apply list_elem_of_singleton in Hx. simpl in Hx.
      pose proof (next_id_fresh (habits_json s) h Hin). lia.
    + apply NoDup_singleton.
Qed.

Lemma delete_unique_ids (hid : Z) (s : HabitTUI) :
  unique_ids s → unique_ids (action_delete_habit hid s).
Proof.
  unfold unique_ids. intros Hnd. rewrite action_delete_habit_state.
  cbn [habits_json].
  apply (sublist_NoDup _ (map h_id (habits_json s))); [exact Hnd|].
  apply fmap_sublist, sublist_filter.
Qed.

Lemma filter_checked_le (P : Entry → bool) (Q : Entry → Prop)
    `{!∀ r, Decision (Q r)} (arr : list Entry) :
  (length (List.filter P (filter Q arr)) ≤ length (List.filter P arr))%nat.
Proof.
  induction arr as [|r arr IH]; [done|].
  rewrite filter_cons. simpl.
  destruct (decide (Q r)), (P r) eqn:HP; simpl; rewrite ?HP; simpl; lia.
Qed.

Lemma delete_single_checks (hid : Z) (s : HabitTUI) :
  single_checks s → single_checks (action_delete_habit hid s).
Proof.
  intros Hinv d i. specialize (Hinv d i). unfold true_count in *.
  rewrite action_delete_habit_day_entries.
  pose proof (filter_checked_le (checked_by i) (λ r, r_id r ≠ hid)
                (day_entries (entries_json s) d)).
  lia.
Qed.

Lemma perform_keeps (a : Action) (s : HabitTUI) :
  unique_ids s ∧ single_checks s →
  unique_ids (perform s a) ∧ single_checks (perform s a).
Proof.
  intros [Hu Hs]. destruct a as [now hid b text|b inp|hid b inp|hid|]; simpl.
  - unfold press_space.
    pose proof (toggle_habits now hid s) as Hh.
    pose proof (toggle_single_checks now hid s Hs) as Hs'.
    destruct (action_toggle_check now hid s) as [s' [habit|]]; simpl in *.
    + split; [|by apply log_button_single_checks].
      unfold unique_ids. by rewrite log_button_habits, Hh.
    + split; [|done]. unfold unique_ids. by rewrite Hh.
  - split; [by apply edit_button_unique_ids|].
    unfold single_checks. by rewrite edit_button_entries.
  - destruct (action_edit_habit hid s) as [scr|]; [|done].
    split; [by apply edit_button_unique_ids|].
    unfold single_checks. by rewrite edit_button_entries.
  - split; [by apply delete_unique_ids|by apply delete_single_checks].
  - destruct (action_toggle_filter_total s) as (t & _ & ->). done.
Qed.

(** X5: From a state in which no two habits share an id and no day holds two
    boolean-true records of one habit, every sequence of the keys space,
    a, e, d and f, each with the dialog it opens, leads to such a state
    again; the documents of the first run are such a state. *)
Theorem invariants_kept (acts : list Action) (s : HabitTUI) :
  unique_ids s ∧ single_checks s →
  unique_ids (run acts s) ∧ single_checks (run acts s).
Proof.
  unfold run. revert s. induction acts as [|a acts IH]; intros s Hinv; [done|].
  simpl. by apply IH, perform_keeps.
Qed.

Lemma first_run_invariants (today : string) :
  unique_ids (first_run today) ∧ single_checks (first_run today).
Proof.
  split; [apply NoDup_nil_2|]. intros d hid.
  unfold true_count, day_entries, first_run. simpl. rewrite lookup_empty. simpl. lia.
Qed.

Lemma invariants_kept_witness :
  let acts := [KeyAdd BtnSave (mkEditInput "Sleep by 11" "" "");
               KeyAdd BtnSave (mkEditInput "Mood" "" "log");
               KeySpace "10:00:00" 1 BtnSave "";
               KeySpace "10:00:01" 2 BtnSave "great";
               KeyDelete 1;
               KeyAdd BtnSave (mkEditInput "Read" "" "")] in
  unique_ids (run acts (first_run "2024-01-01")) ∧
  single_checks (run acts (first_run "2024-01-01")).
Proof.
  apply (invariants_kept _ (first_run "2024-01-01")).
  apply first_run_invariants.
Defined.

End Invariants.

(** ** The order of the rows and of the report *)

Section Order.

Lemma row_keys (s : HabitTUI) :
  map row_key (refresh_table s)
  = map h_id (filter (λ h, visible (filter_tag s) h) (sorted_by_id (habits_json s))).
Proof.
  rewrite refresh_table_visible_rows. unfold visible_rows.
  rewrite map_map. by apply map_ext.
Qed.

Lemma visible_without_filter (ft : option string) (h : Habit) :
  ft = None ∨ ft = Some "" → visible ft h = h_active h.
Proof. intros [->| ->]; unfold visible; simpl; apply andb_true_r. Qed.

Lemma row_keys_NoDup (s : HabitTUI) :
  unique_ids s → NoDup (map row_key (refresh_table s)).
Proof.
  unfold unique_ids. intros Hnd. rewrite row_keys.
  assert (NoDup (map h_id (sorted_by_id (habits_json s)))) as Hnd'
    by (by rewrite sorted_by_id_perm).
  apply (sublist_NoDup _ _ Hnd'), fmap_sublist, sublist_filter.
Qed.

(** X9: The rows of the table come in ascending order of their keys; when no
    two habits share an id, no two rows share a key (so [add_row] is never
    given a key twice); and when the tag filter is unset, or is the empty
    string, there is exactly one row per active habit. *)
Theorem table_rows_by_key (s : HabitTUI) :
  StronglySorted Z.le (map row_key (refresh_table s)) ∧
  (unique_ids s → NoDup (map row_key (refresh_table s))) ∧
  (filter_tag s = None ∨ filter_tag s = Some "" →
     map row_key (refresh_table s)
     ≡ₚ map h_id (filter (λ h, h_active h) (habits_json s))).
Proof.
  rewrite row_keys. split; [|split].
  - apply (StronglySorted_fmap h_id id_le); [done|].
    apply StronglySorted_filter, sorted_by_id_sorted.
  - rewrite <-row_keys. apply row_keys_NoDup.
  - intros Hft. rewrite sorted_by_id_perm.
    rewrite (list_filter_iff _ (λ h, h_active h)); [done|].
    intros h. by rewrite (visible_without_filter _ h Hft).
Qed.

Lemma habit_lines_sorted (arr : list Entry) (h : Habit) :
  StronglySorted line_le (habit_lines arr h).
Proof.
  assert (∀ l1 l2, l1 ∈ habit_lines arr h → l2 ∈ habit_lines arr h → line_le l1 l2)
    as Hsame.
  { intros l1 l2 H1%habit_lines_id H2%habit_lines_id i j Hi Hj.
    rewrite H1 in Hi. rewrite H2 in Hj. simplify_eq. lia. }
  induction (habit_lines arr h) as [|l ls IH]; [constructor|].
  constructor.
  - apply IH. intros l1 l2 H1 H2. apply Hsame; by right.
  - apply Forall_forall. intros l' Hl'. apply Hsame; [by left|by right].
Qed.

Lemma flat_map_lines_sorted (arr : list Entry) (visit : list Habit) :
  StronglySorted id_le visit →
  StronglySorted line_le (flat_map (habit_lines arr) visit).
Proof.
  induction 1 as [|h visit Hs IH Hall]; [constructor|].
  simpl. apply StronglySorted_app_2; [|apply habit_lines_sorted|done].
  intros l1 l2 H1%habit_lines_id H2 i j Hi Hj.
  apply list_elem_of_In, in_flat_map in H2 as (h' & Hh' & H2).
  apply list_elem_of_In, habit_lines_id in H2. apply list_elem_of_In in Hh'.
  rewrite Forall_forall in Hall. specialize (Hall h' Hh'). unfold id_le in Hall.
  rewrite H1 in Hi. rewrite H2 in Hj. simplify_eq. done.
Qed.

(** X10: The report is its header followed by lines that are each about an
    active habit and come in ascending order of the habit ids; the tag
    filter of the table plays no part in it. *)
Theorem report_in_id_order (s : HabitTUI) :
  ∃ body,
    action_show_report s = Header (day_key s) :: body ∧
    (∀ l, l ∈ body →
       ∃ h, h ∈ habits_json s ∧ h_active h = true ∧ line_id l = Some (h_id h)) ∧
    StronglySorted line_le body ∧
    (∀ t, action_show_report (with_filter s t) = Header (day_key s) :: body).
Proof.
  eexists. split; [apply action_show_report_build_report|]. split; [|split].
  - intros l Hl. apply list_elem_of_In, in_flat_map in Hl as (h & Hh & Hl).
    apply list_elem_of_In, list_elem_of_filter in Hh as [Ha Hh].
    rewrite elem_of_sorted_by_id in Hh. apply Is_true_true in Ha.
    apply list_elem_of_In, habit_lines_id in Hl. eauto.
  - apply flat_map_lines_sorted, StronglySorted_filter, sorted_by_id_sorted.
  - intros t. by rewrite action_show_report_build_report.
Qed.

End Order.

(** ** The tag filter key *)

Section Cycle.

Lemma action_toggle_filter_next (s : HabitTUI) :
  filter_tag (action_toggle_filter s) = next_tag (filter_tag s).
Proof.
  unfold action_toggle_filter, next_tag.
  by destruct (cycle_filter THEMES (filter_tag s)).
Qed.

Lemma iter_toggle_filter (n : nat) (s : HabitTUI) :
  filter_tag (Nat.iter n action_toggle_filter s) = Nat.iter n next_tag (filter_tag s).
Proof.
  induction n as [|n IH]; [done|].
  simpl. by rewrite action_toggle_filter_next, IH.
Qed.

Lemma next_tag_theme (tag : option string) :
  (tag = None ∨ ∃ t, t ∈ THEMES ∧ tag = Some t) →
  ∃ t, t ∈ THEMES ∧ next_tag tag = Some t.
Proof.
  intros [->|(t & Ht & ->)].
  - eexists. split; [|reflexivity]. apply list_elem_of_here.
  - unfold THEMES in Ht.
    repeat (apply elem_of_cons in Ht as [->|Ht];
            [eexists; split; [|reflexivity];
             apply (bool_decide_unpack _); vm_compute; exact I|]).
    by apply elem_of_nil in Ht.
Qed.

Lemma next_tag_period (t : string) :
  t ∈ THEMES → Nat.iter (length THEMES) next_tag (Some t) = Some t.
Proof.
  unfold THEMES. intros Ht.
  repeat (apply elem_of_cons in Ht as [->|Ht]; [vm_compute; reflexivity|]).
  by apply elem_of_nil in Ht.
Qed.

(** X11: When the tag filter is unset or one of the themes, one press of the
    filter key or more leaves it at one of the themes: the key never
    brings the filter back to unset.  From a theme, as many presses as
    there are themes bring the same theme back. *)
Theorem filter_key_never_clears (n : nat) (s : HabitTUI) :
  (filter_tag s = None ∨ ∃ t, t ∈ THEMES ∧ filter_tag s = Some t) →
  (∃ t, t ∈ THEMES ∧
        filter_tag (Nat.iter (S n) action_toggle_filter s) = Some t) ∧
  (∀ t, filter_tag s = Some t →
        filter_tag (Nat.iter (length THEMES) action_toggle_filter s) = Some t).
Proof.
  intros Hs. split.
  - rewrite iter_toggle_filter.
    induction n as [|n IH]; [by apply next_tag_theme|].
    destruct IH as (t & Ht & Heq).
    change (Nat.iter (S (S n)) next_tag (filter_tag s))
      with (next_tag (Nat.iter (S n) next_tag (filter_tag s))).
    rewrite Heq. apply next_tag_theme. eauto.
  - intros t Ht. rewrite iter_toggle_filter, Ht.
    destruct Hs as [Hs|(t' & Hin & Hs)]; [congruence|].
    apply next_tag_period. congruence.
Qed.

Lemma filter_key_never_clears_witness :
  (∃ t, t ∈ THEMES ∧
        filter_tag (Nat.iter 10 action_toggle_filter (first_run "2024-01-01")) = Some t) ∧
  (∀ t, filter_tag (first_run "2024-01-01") = Some t →
        filter_tag (Nat.iter (length THEMES) action_toggle_filter
                      (first_run "2024-01-01")) = Some t).
Proof.
  apply (filter_key_never_clears 9 (first_run "2024-01-01")).
  left. reflexivity.
Defined.

End Cycle.

(** ** strip, split and join *)

Section Strings.

Lemma chars_rev_app (s1 s2 : string) :
  chars (String.rev_app s1 s2) = reverse (chars s1) ++ chars s2.
Proof.
  revert s2. induction s1 as [|c s1 IH]; intros s2; [done|].
  simpl. rewrite IH. unfold chars. simpl.
  by rewrite reverse_cons, <-app_assoc.
Qed.

Lemma chars_rev (s : string) : chars (String.rev s) = reverse (chars s).
Proof. unfold String.rev. by rewrite chars_rev_app, app_nil_r. Qed.

Lemma chars_inj (s1 s2 : string) : chars s1 = chars s2 → s1 = s2.
Proof.
  intros Heq.
  rewrite <-(String.string_of_list_ascii_of_string s1),
          <-(String.string_of_list_ascii_of_string s2).
  unfold chars in Heq. by rewrite Heq.
Qed.

Lemma rev_rev (s : string) : String.rev (String.rev s) = s.
Proof. apply chars_inj. by rewrite !chars_rev, reverse_involutive. Qed.

Lemma has_char_chars (c : ascii) (s : string) :
  has_char c s = true ↔ c ∈ chars s.
Proof.
  induction s as [|a s IH]; unfold chars in *; simpl.
  - split; [done|by intros ?%elem_of_nil].
  - rewrite orb_true_iff, bool_decide_eq_true, IH, elem_of_cons.
    split; (intros [Heq|Hin]; [left; congruence|by right]).
Qed.

Lemma has_char_false (c : ascii) (s : string) :
  has_char c s = false ↔ c ∉ chars s.
Proof.
  rewrite <-has_char_chars. by destruct (has_char c s).
Qed.

Lemma append_cons (a : ascii) (s t : string) :
  String a s +:+ t = String a (s +:+ t).
Proof. reflexivity. Qed.

Lemma chars_app (s1 s2 : string) : chars (s1 +:+ s2) = chars s1 ++ chars s2.
Proof.
  induction s1 as [|a s1 IH]; [done|].
  rewrite append_cons. unfold chars in *. simpl. by rewrite IH.
Qed.

Lemma rev_append (p q : string) :
  String.rev (p +:+ q) = String.rev q +:+ String.rev p.
Proof.
  apply chars_inj. by rewrite chars_rev, !chars_app, !chars_rev, reverse_app.
Qed.

(** Induction for functions that consume one, two or three bytes at a
    time. *)
Lemma string_ind3 (P : string → Prop) :
  (∀ s, (∀ a s1, s = String a s1 → P s1) →
        (∀ a b s2, s = String a (String b s2) → P s2) →
        (∀ a b c s3, s = String a (String b (String c s3)) → P s3) →
        P s) →
  ∀ s, P s.
Proof.
  intros Hstep s.
  assert (P s ∧ (∀ a s1, s = String a s1 → P s1)
          ∧ (∀ a b s2, s = String a (String b s2) → P s2)) as [Hs _]; [|done].
  induction s as [|x s (IH0 & IH1 & IH2)].
  - split; [apply Hstep; intros; discriminate|]. split; intros; discriminate.
  - assert (∀ a s1, String x s = String a s1 → P s1) as H1
      by (by intros a s1 [= _ <-]).
    assert (∀ a b s2, String x s = String a (String b s2) → P s2) as H2
      by (intros a b s2 [= _ ->]; by eapply IH1).
    split; [|done]. apply Hstep; [done..|].
    intros a b c s3 [= _ ->]. by eapply IH2.
Qed.

Section DropChars.

Variable t1 : ascii → bool.
Variable t2 : ascii → ascii → bool.
Variable t3 : ascii → ascii → ascii → bool.

Lemma drop_chars_fixed (s : string) :
  starts_with t1 t2 t3 s = false → PyStr.drop_chars t1 t2 t3 s = s.
Proof.
  destruct s as [|a [|b [|c s3]]]; simpl; [done|..].
  - rewrite orb_false_r. by intros ->.
  - intros [-> [-> _]%orb_false_iff]%orb_false_iff. done.
  - intros [-> [-> ->]%orb_false_iff]%orb_false_iff. done.
Qed.

Lemma drop_chars_starts (s : string) :
  starts_with t1 t2 t3 (PyStr.drop_chars t1 t2 t3 s) = false.
Proof.
  induction s as [s IH1 IH2 IH3] using string_ind3.
  destruct s as [|a s1]; [done|]. simpl.
  destruct (t1 a) eqn:Ha; [by eapply IH1|].
  destruct s1 as [|b s2]; [simpl; by rewrite Ha|].
  destruct (t2 a b) eqn:Hb; [by eapply IH2|].
  destruct s2 as [|c s3]; [simpl; by rewrite Ha, Hb|].
  destruct (t3 a b c) eqn:Hc; [by eapply IH3|].
  simpl. by rewrite Ha, Hb, Hc.
Qed.

Lemma drop_chars_suffix (s : string) :
  ∃ p, s = p +:+ PyStr.drop_chars t1 t2 t3 s.
Proof.
  induction s as [s IH1 IH2 IH3] using string_ind3.
  destruct s as [|a s1]; [by exists ""|]. simpl.
  destruct (t1 a); [destruct (IH1 a s1 eq_refl) as [p Hp];
                    exists (String a p); by rewrite append_cons, <-Hp|].
  destruct s1 as [|b s2]; [by exists ""|].
  destruct (t2 a b); [destruct (IH2 a b s2 eq_refl) as [p Hp];
                      exists (String a (String b p)); by rewrite !append_cons, <-Hp|].
  destruct s2 as [|c s3]; [by exists ""|].
  destruct (t3 a b c); [|by exists ""].
  destruct (IH3 a b c s3 eq_refl) as [p Hp].
  exists (String a (String b (String c p))). by rewrite !append_cons, <-Hp.
Qed.

Lemma starts_with_append (r t : string) :
  starts_with t1 t2 t3 r = true → starts_with t1 t2 t3 (r +:+ t) = true.
Proof.
  destruct r as [|a [|b [|c r3]]]; rewrite ?append_cons; simpl; [done|..].
  - rewrite orb_false_r. by intros ->.
  - rewrite orb_false_r. intros [->| ->]%orb_true_iff; [done|].
    change ("" +:+ t) with t. destruct t; by rewrite ?orb_true_r.
  - intros [->|[->| ->]%orb_true_iff]%orb_true_iff; by rewrite ?orb_true_r.
Qed.

End DropChars.

Lemma lstrip_fixed (s : string) :
  starts_with PyStr.space1 PyStr.space2 PyStr.space3 s = false →
  PyStr.lstrip s = s.
Proof. apply drop_chars_fixed. Qed.

(** What [rstrip] keeps is the front part of the string. *)
Lemma rstrip_prefix (s : string) : ∃ q, s = PyStr.rstrip s +:+ q.
Proof.
  unfold PyStr.rstrip.
  destruct (drop_chars_suffix PyStr.space1 (λ b a, PyStr.space2 a b)
              (λ c b a, PyStr.space3 a b c) (String.rev s)) as [p Hp].
  exists (String.rev p). rewrite <-rev_append, <-Hp. by rewrite rev_rev.
Qed.

Lemma rstrip_rstrip (s : string) : PyStr.rstrip (PyStr.rstrip s) = PyStr.rstrip s.
Proof.
  unfold PyStr.rstrip. rewrite rev_rev.
  by rewrite (drop_chars_fixed _ _ _ _ (drop_chars_starts _ _ _ _)).
Qed.

(** [strip] leaves nothing to strip. *)
Lemma strip_strip (s : string) : PyStr.strip (PyStr.strip s) = PyStr.strip s.
Proof.
  unfold PyStr.strip. set (a := PyStr.lstrip s).
  rewrite (lstrip_fixed (PyStr.rstrip a)); [apply rstrip_rstrip|].
  destruct (rstrip_prefix a) as [q Hq].
  destruct (starts_with _ _ _ (PyStr.rstrip a)) eqn:Hb; [|done].
  apply (starts_with_append _ _ _ _ q) in Hb. rewrite <-Hq in Hb.
  unfold a, PyStr.lstrip in Hb. by rewrite drop_chars_starts in Hb.
Qed.

Lemma strip_subseteq (s : string) : chars (PyStr.strip s) ⊆ chars s.
Proof.
  unfold PyStr.strip. intros x Hx.
  destruct (rstrip_prefix (PyStr.lstrip s)) as [q Hq].
  destruct (drop_chars_suffix PyStr.space1 PyStr.space2 PyStr.space3 s) as [p Hp].
  fold (PyStr.lstrip s) in Hp.
  rewrite Hp, chars_app, Hq, chars_app. set_unfold. tauto.
Qed.

(** Whitespace outside the ASCII range is stripped like the rest: a log
    text of one no-break space is dropped, a type of one ideographic space
    is stored as ["check"], and a title is stored without the ideographic
    space and the em space around it. *)
Example unicode_whitespace :
  PyStr.strip " " = "" ∧
  PyStr.strip "　Read 수면   " = "Read 수면" ∧
  LogInputScreen_on_button_pressed "10:00:00" (mkHabit 2 "Mood" [] "log" true)
    BtnSave " " string_true = string_true ∧
  habits_json (add_habit (mkEditInput " Read　" "a,　,b " "　") empty_store)
  = [mkHabit 1 "Read" ["a"; "b"] "check" true].
Proof. repeat split; vm_compute; reflexivity. Qed.

Lemma split_go_pieces (sep : ascii) (s cur : string) (p : string) :
  has_char sep cur = false → p ∈ PyStr.split_go sep cur s →
  has_char sep p = false.
Proof.
  revert cur. induction s as [|c s IH]; intros cur Hcur; simpl.
  - intros ->%list_elem_of_singleton.
    apply has_char_false. rewrite chars_rev, elem_of_reverse.
    by apply has_char_false.
  - case_bool_decide as Hc.
    + intros [->|Hp]%elem_of_cons; [|by apply (IH "")].
      apply has_char_false. rewrite chars_rev, elem_of_reverse.
      by apply has_char_false.
    + apply IH. simpl. by rewrite bool_decide_eq_false_2.
Qed.

(** X12: The tags read from the tags field are never empty, are left as
    they are by [strip] (no whitespace character at either end) and
    contain no comma. *)
Theorem parse_tags_clean (value : string) :
  Forall clean_tag (parse_tags value).
Proof.
  apply Forall_forall. intros t Ht. unfold parse_tags in Ht.
  apply list_elem_of_omap in Ht as (p & Hp & Ht).
  destruct (PyStr.truthy (PyStr.strip p)) eqn:Htruthy; [|done].
  injection Ht as <-. split; [apply strip_strip|]. split.
  - by apply truthy_nonempty.
  - apply has_char_false. intros Hin%strip_subseteq.
    unfold PyStr.split in Hp.
    pose proof (split_go_pieces "," value "" p eq_refl Hp) as Hno.
    by apply has_char_false in Hno.
Qed.

Lemma split_go_whole (sep : ascii) (t cur : string) :
  has_char sep t = false →
  PyStr.split_go sep cur t = [String.rev (String.rev_app t cur)].
Proof.
  revert cur. induction t as [|c t IH]; intros cur; simpl; [done|].
  intros [Hc Ht]%orb_false_iff. rewrite Hc. by apply IH.
Qed.

Lemma split_go_first (sep : ascii) (t cur rest : string) :
  has_char sep t = false →
  PyStr.split_go sep cur (t +:+ String sep rest)
  = String.rev (String.rev_app t cur) :: PyStr.split sep rest.
Proof.
  revert cur. induction t as [|c t IH]; intros cur; simpl.
  - intros _. by rewrite bool_decide_eq_true_2.
  - intros [Hc Ht]%orb_false_iff. rewrite Hc. by apply IH.
Qed.

(** Splitting at commas what was joined with commas gives the pieces
    back, when no piece has a comma. *)
Lemma split_join (x : string) (l : list string) :
  Forall (λ t, has_char "," t = false) (x :: l) →
  PyStr.split "," (PyStr.join "," (x :: l)) = x :: l.
Proof.
  revert x. induction l as [|y l IH]; intros x Hall.
  - apply Forall_cons in Hall as [Hx _]. simpl. unfold PyStr.split.
    rewrite (split_go_whole _ _ _ Hx). fold (String.rev x). by rewrite rev_rev.
  - apply Forall_cons in Hall as [Hx Hall].
    change (PyStr.join "," (x :: y :: l))
      with (x +:+ String "," (PyStr.join "," (y :: l))).
    unfold PyStr.split at 1. rewrite (split_go_first _ _ _ _ Hx).
    fold (String.rev x). by rewrite rev_rev, IH.
Qed.

(** The tags field filled from clean tags reads back as those tags. *)
Lemma parse_tags_join (tags : list string) :
  Forall clean_tag tags → parse_tags (PyStr.join "," tags) = tags.
Proof.
  intros Hall. destruct tags as [|x l]; [done|].
  unfold parse_tags. rewrite split_join.
  - induction Hall as [|t ts (Hs & Hne & _) _ IH]; [done|].
    cbn [omap list_omap]. rewrite Hs.
    apply truthy_nonempty in Hne. rewrite Hne. by rewrite IH.
  - eapply Forall_impl; [exact Hall|]. by intros t (_ & _ & ?).
Qed.

Lemma alter_fixed {A} (f : A → A) (l : list A) (i : nat) (x : A) :
  l !! i = Some x → f x = x → alter f i l = l.
Proof.
  revert i. induction l as [|y l IH]; intros [|i] Hi Hf; simplify_eq/=; [by f_equal|].
  f_equal. by apply IH.
Qed.

(** X13: The save handler of the edit dialog, run on the field values
    that [compose] fills in for the habit [action_edit_habit] finds, leaves
    the state as it is, when [strip] leaves the title and the type of the
    habit as they are, the type is not empty and its tags are clean. *)
Theorem edit_untouched_fields (hid : Z) (s : HabitTUI) (i : nat) (h : Habit) :
  list_find (λ x, h_id x = hid) (habits_json s) = Some (i, h) →
  PyStr.strip (h_title h) = h_title h →
  PyStr.strip (h_type h) = h_type h → h_type h ≠ "" →
  Forall clean_tag (h_tags h) →
  action_edit_habit hid s = Some (mkEditScreen (Some i)) ∧
  edit_habit hid (EditScreen_compose (mkEditScreen (Some i)) s) s = s.
Proof.
  intros Hfind Htitle Htype Hne Htags.
  split; [unfold action_edit_habit; by rewrite Hfind|].
  rewrite (edit_habit_alters hid _ s i h Hfind).
  apply list_find_Some in Hfind as (Hi & _ & _).
  unfold EditScreen_compose. simpl. rewrite Hi.
  cbn [title_input tags_input type_input].
  rewrite Htitle, Htype, (parse_tags_join _ Htags).
  rewrite (proj2 (or_else_check _) Hne).
  rewrite (alter_fixed _ _ i h Hi); [by destruct s|by destruct h].
Qed.

Lemma edit_untouched_fields_witness :
  action_edit_habit 2 string_true = Some (mkEditScreen (Some 0%nat)) ∧
  edit_habit 2 (EditScreen_compose (mkEditScreen (Some 0%nat)) string_true) string_true
  = string_true.
Proof.
  apply (edit_untouched_fields 2 string_true 0%nat
           (mkHabit 2 "Mood" ["정신·태도"] "log" true));
    [reflexivity | reflexivity | reflexivity | discriminate |].
  repeat constructor; discriminate.
Defined.

End Strings.

(** ** The status line *)

Section Status.



End Status.
